(** * kitipy.docker.stack: a shallow embedding of the stack abstraction

    The development follows [src/kitipy/docker/stack.py]: the two backends
    [ComposeStack] and [SwarmStack], their operations, the lazy [config]
    property and the factory [load_stack].

    Python objects are modelled with explicit state passing: a method is a
    function from the state (the receiver object and the log of the commands
    handed to the Executor) to a result, which is either a raised exception or
    a returned value, and the state at that point. *)

From Stdlib Require Import String Ascii List ZArith Bool Lia DecimalString.
Import ListNotations.
Open Scope string_scope.

Set Warnings "-register-all".

(** ** Strings *)

Module Str.

(** The double quote character, for the shell fragments and messages of the
    source that contain it. *)
Definition dq : string := String (ascii_of_nat 34) EmptyString.

(** [' '.join(l)] and friends. *)
Definition join (sep : string) (l : list string) : string := String.concat sep l.

(** Iterating over a Python string yields its characters, each a string of
    length one. *)
Fixpoint chars (s : string) : list string :=
  match s with
  | EmptyString => []
  | String c rest => String c EmptyString :: chars rest
  end.

(** [s.replace('_', '-')] *)
Fixpoint dashes (s : string) : string :=
  match s with
  | EmptyString => EmptyString
  | String c rest =>
      String (if Ascii.eqb c "_"%char then "-"%char else c) (dashes rest)
  end.

(** ['%d' % z] and [str(z)] for an integer. *)
Definition decimal (z : Z) : string := NilZero.string_of_int (Z.to_int z).

(** [sub] occurs in [s]. *)
Definition occurs_in (sub s : string) : Prop :=
  exists pre post, s = pre ++ sub ++ post.

End Str.

(** ** Python dictionaries

    A [dict] keeps its keys in insertion order, and the order of the keyword
    arguments decides the order of the flags on a command line: an
    association list with the update discipline of Python. *)

Module Dict.

Definition t (V : Type) : Type := list (string * V).

Fixpoint get {V} (k : string) (d : t V) : option V :=
  match d with
  | [] => None
  | (k', v) :: rest => if String.eqb k k' then Some v else get k rest
  end.

(** [k in d] *)
Definition mem {V} (k : string) (d : t V) : bool :=
  match get k d with Some _ => true | None => false end.

(** [d[k] = v]: an existing key keeps its position, a new one goes last. *)
Fixpoint set {V} (k : string) (v : V) (d : t V) : t V :=
  match d with
  | [] => [(k, v)]
  | (k', v') :: rest =>
      if String.eqb k k' then (k', v) :: rest else (k', v') :: set k v rest
  end.

(** [d.setdefault(k, v)] *)
Definition setdefault {V} (k : string) (v : V) (d : t V) : t V :=
  if mem k d then d else (d ++ [(k, v)])%list.

(** [d.update(d')] *)
Definition update {V} (d d' : t V) : t V :=
  fold_left (fun acc kv => set (fst kv) (snd kv) acc) d' d.

(** [d.keys()] *)
Definition keys {V} (d : t V) : list string := map fst d.

End Dict.

(** ** Values *)

(** The values a caller passes as keyword arguments: [None], a boolean, a
    scalar, or a tuple or list of scalars. *)
Inductive scalar : Type :=
| SStr (s : string)
| SInt (z : Z).

Inductive pyval : Type :=
| VNone
| VBool (b : bool)
| VScalar (x : scalar)
| VTuple (l : list scalar)
| VList (l : list scalar).

Definition kwargs : Type := Dict.t pyval.

(** Structured data, as [yaml.safe_load] and [json.loads] produce it and as
    the configuration provider holds it. *)
Inductive data : Type :=
| DNone
| DBool (b : bool)
| DInt (z : Z)
| DStr (s : string)
| DList (l : list data)
| DDict (d : list (string * data)).

(** ** Exceptions *)

Inductive exn : Type :=
| TypeError (msg : string)
| KeyError (key : string)
| IndexError
| AttributeError (attr : string)
| BadParameter (msg : string)       (* click.BadParameter *)
| RuntimeError (msg : string)
| External (what : string).         (* raised by Executor.run, yaml or json *)

Definition result (A : Type) : Type := (exn + A)%type.

(** ['%s' % x] for a scalar. *)
Definition str_scalar (x : scalar) : string :=
  match x with
  | SStr s => s
  | SInt z => Str.decimal z
  end.

(** [v += s] where the right-hand side is a [str], the only augmented
    assignment of the source.  A tuple has no [__iadd__] and [tuple + str] is a
    [TypeError]; [list.__iadd__] extends the list with the elements of any
    iterable, and iterating over a string yields its characters; [str + str]
    concatenates. *)
Definition iadd_str (v : pyval) (s : string) : result pyval :=
  match v with
  | VTuple _ =>
      inl (TypeError ("can only concatenate tuple (not " ++ Str.dq ++ "str"
                        ++ Str.dq ++ ") to tuple"))
  | VList l => inr (VList (l ++ map SStr (Str.chars s))%list)
  | VScalar (SStr a) => inr (VScalar (SStr (a ++ s)))
  | VScalar (SInt _) =>
      inl (TypeError "unsupported operand type(s) for +=: 'int' and 'str'")
  | VBool _ =>
      inl (TypeError "unsupported operand type(s) for +=: 'bool' and 'str'")
  | VNone =>
      inl (TypeError "unsupported operand type(s) for +=: 'NoneType' and 'str'")
  end.

(** [d[k]] with a [str] key. *)
Definition getitem (d : data) (k : string) : result data :=
  match d with
  | DDict m =>
      match Dict.get k m with
      | Some v => inr v
      | None => inl (KeyError k)
      end
  | DList _ => inl (TypeError "list indices must be integers or slices, not str")
  | DStr _ => inl (TypeError "string indices must be integers")
  | DNone => inl (TypeError "'NoneType' object is not subscriptable")
  | DBool _ => inl (TypeError "'bool' object is not subscriptable")
  | DInt _ => inl (TypeError "'int' object is not subscriptable")
  end.

(** [d[0]] *)
Definition getitem0 (d : data) : result data :=
  match d with
  | DList (x :: _) => inr x
  | DList [] => inl IndexError
  | DStr (String c _) => inr (DStr (String c EmptyString))
  | DStr EmptyString => inl IndexError
  | DDict _ => inl (KeyError "0")
  | DNone => inl (TypeError "'NoneType' object is not subscriptable")
  | DBool _ => inl (TypeError "'bool' object is not subscriptable")
  | DInt _ => inl (TypeError "'int' object is not subscriptable")
  end.

(** [bool(d)] *)
Definition truthy (d : data) : bool :=
  match d with
  | DNone => false
  | DBool b => b
  | DInt z => negb (Z.eqb z 0)
  | DStr s => negb (String.eqb s EmptyString)
  | DList l => match l with [] => false | _ => true end
  | DDict m => match m with [] => false | _ => true end
  end.

(** ** The Executor and the rest of the environment *)

(** What [Executor.run] receives: the command and the keyword arguments
    [pipe], [check], [env] and [cwd].  [pipe] and [check] are absent when the
    caller leaves them to the Executor's own defaults. *)
Record invocation : Type := Invocation {
  inv_cmd : string;
  inv_pipe : option bool;
  inv_check : option bool;
  inv_env : Dict.t data;
  inv_cwd : data
}.

(** subprocess.CompletedProcess; [stdout] and [stderr] are [None] when the
    stream was not captured. *)
Record CompletedProcess : Type := Completed {
  returncode : Z;
  stdout : option string;
  stderr : option string
}.

(** The Executor is an external collaborator (kitipy.executor): all this
    module knows of it is that [run] takes a command with keyword arguments
    and returns a [CompletedProcess] or raises.  Its answer may depend on
    what it ran before. *)
Definition Executor : Type := list invocation -> invocation -> result CompletedProcess.

(** The library functions and the ambient process state the module reads. *)
Record Runtime : Type := {
  yaml_safe_load : option string -> result data;
  json_loads : option string -> result data;
  py_repr : data -> string;                     (* repr() of a list or dict *)
  py_splitlines : string -> list string;        (* str.splitlines *)
  os_environ : Dict.t string;
  os_getcwd : string
}.

(** ['%s' % d] *)
Definition str_data (rt : Runtime) (d : data) : string :=
  match d with
  | DNone => "None"
  | DBool true => "True"
  | DBool false => "False"
  | DInt z => Str.decimal z
  | DStr s => s
  | DList _ | DDict _ => py_repr rt d
  end.

(** ** Stack objects *)

Inductive Backend : Type := ComposeStack | SwarmStack.

(** Both classes have the same instance attributes, set by [__init__]. *)
Record StackObj : Type := {
  cls : Backend;
  name : string;
  _executor : Executor;
  _env : Dict.t data;
  _basedir : data;
  _loaded : bool;
  _config : data
}.

(** ComposeStack.__init__ *)
Definition ComposeStack_init (rt : Runtime) (executor : Executor)
    (stack_name : string) (file : data) (basedir : data) : StackObj :=
  {| cls := ComposeStack;
     name := stack_name;
     _executor := executor;
     _env := Dict.update
               (map (fun kv => (fst kv, DStr (snd kv))) (os_environ rt))
               [("COMPOSE_PROJECT_NAME", DStr stack_name);
                ("COMPOSE_FILE", file)];
     _basedir := basedir;
     _loaded := false;
     _config := DNone |}.

(** SwarmStack.__init__ *)
Definition SwarmStack_init (executor : Executor)
    (stack_name : string) (file : data) (basedir : data) : StackObj :=
  {| cls := SwarmStack;
     name := stack_name;
     _executor := executor;
     _env := [("COMPOSE_FILE", file)];
     _basedir := basedir;
     _loaded := false;
     _config := DNone |}.

(** ** State and exceptions *)

Record state : Type := State {
  self : StackObj;
  trace : list invocation        (* what the Executor was asked to run, oldest first *)
}.

Definition M (A : Type) : Type := state -> result A * state.

Definition ret {A} (a : A) : M A := fun st => (inr a, st).

Definition raise {A} (e : exn) : M A := fun st => (inl e, st).

Definition bind {A B} (m : M A) (k : A -> M B) : M B :=
  fun st =>
    match m st with
    | (inl e, st') => (inl e, st')
    | (inr a, st') => k a st'
    end.

(** A pure computation that may raise. *)
Definition lift {A} (r : result A) : M A := fun st => (r, st).

Notation "x <- m ;; k" := (bind m (fun x => k))
  (at level 61, m at next level, right associativity).
Notation "m ;;; k" := (bind m (fun _ => k))
  (at level 61, right associativity).

Definition get_self : M StackObj := fun st => (inr (self st), st).

Definition set_config (c : data) : M unit :=
  fun st =>
    let o := self st in
    (inr tt,
     {| self := {| cls := cls o; name := name o; _executor := _executor o;
                   _env := _env o; _basedir := _basedir o;
                   _loaded := _loaded o; _config := c |};
        trace := trace st |}).

Definition set_loaded (b : bool) : M unit :=
  fun st =>
    let o := self st in
    (inr tt,
     {| self := {| cls := cls o; name := name o; _executor := _executor o;
                   _env := _env o; _basedir := _basedir o;
                   _loaded := b; _config := _config o |};
        trace := trace st |}).

(** [self._executor.run(cmd, **kwargs)]: the invocation is logged whether the
    Executor returns or raises. *)
Definition executor_run (i : invocation) : M CompletedProcess :=
  fun st =>
    (_executor (self st) (trace st) i,
     {| self := self st; trace := (trace st ++ [i])%list |}).

(** [_run], the same in both classes: [env] and [cwd] default to the
    attributes of the instance, and no caller in this module passes them. *)
Definition _run (cmd : string) (pipe check : option bool) : M CompletedProcess :=
  o <- get_self ;;
  executor_run {| inv_cmd := cmd; inv_pipe := pipe; inv_check := check;
                  inv_env := _env o; inv_cwd := _basedir o |}.

(** A keyword parameter with a default value. *)
Definition default {A} (d : A) (o : option A) : A :=
  match o with Some a => a | None => d end.

(** ** The command flag encoder *)

Module Flags.

Definition flag_name (k : string) : string := "--" ++ Str.dashes k.

(** Modelled from the spec: [append_cmd_flags] is imported from
    kitipy.utils, which is not among the sources.  The encoding rules are
    those of the specification: a true boolean gives a bare [--key] with
    the underscores of the key turned into dashes, a false one nothing; a
    scalar gives [--key value]; a collection gives one [--key value] per
    element, in order, and nothing when it is empty.  [None] is taken as an
    absent option. *)
Definition encode_flag (kv : string * pyval) : list string :=
  match snd kv with
  | VNone => []
  | VBool true => [flag_name (fst kv)]
  | VBool false => []
  | VScalar x => [flag_name (fst kv) ++ " " ++ str_scalar x]
  | VTuple l | VList l =>
      map (fun x => flag_name (fst kv) ++ " " ++ str_scalar x) l
  end.

Definition encode_flags (kw : kwargs) : list string := flat_map encode_flag kw.

(** Each flag is appended to the command after a space. *)
Fixpoint render (flags : list string) : string :=
  match flags with
  | [] => EmptyString
  | f :: rest => " " ++ f ++ render rest
  end.

Definition append_cmd_flags (cmd : string) (kw : kwargs) : string :=
  cmd ++ render (encode_flags kw).

End Flags.

Import Flags.

Definition is_none (d : data) : bool :=
  match d with DNone => true | _ => false end.

(** [d.keys()] *)
Definition data_keys (d : data) : result (list string) :=
  match d with
  | DDict m => inr (Dict.keys m)
  | _ => inl (AttributeError "keys")
  end.

(** [data[0]['NetworkSettings']['Networks'][network]['IPAddress']]: each
    subscript may raise. *)
Definition ip_address_of (d : data) (network : string) : result data :=
  match getitem0 d with
  | inl e => inl e
  | inr d0 =>
      match getitem d0 "NetworkSettings" with
      | inl e => inl e
      | inr settings =>
          match getitem settings "Networks" with
          | inl e => inl e
          | inr networks =>
              match getitem networks network with
              | inl e => inl e
              | inr net => getitem net "IPAddress"
              end
          end
      end
  end.

(** ** The two backends *)

Section Methods.

Variable rt : Runtime.

(** *** ComposeStack *)

Definition ComposeStack__load_config : M unit :=
  o <- get_self ;;
  if _loaded o then ret tt
  else
    res <- _run "docker-compose config 2>/dev/null" (Some true) None ;;
    c <- lift (yaml_safe_load rt (stdout res)) ;;
    set_config c ;;;
    set_loaded true.

Definition ComposeStack_config : M data :=
  ComposeStack__load_config ;;;
  o <- get_self ;;
  ret (_config o).

Definition ComposeStack_check_config : M bool :=
  res <- _run "docker-compose config 2>&1 1>/dev/null" None None ;;
  ret (Z.eqb (returncode res) 0).

Definition ComposeStack_build (services : list string)
    (_pipe _check : option bool) (kw : kwargs) : M CompletedProcess :=
  let cmd := append_cmd_flags "docker-compose build" kw in
  _run (cmd ++ " " ++ Str.join " " services)
       (Some (default false _pipe)) (Some (default true _check)).

Definition ComposeStack_push (services : list string)
    (_pipe _check : option bool) (kw : kwargs) : M CompletedProcess :=
  let cmd := append_cmd_flags "docker-compose push" kw in
  _run (cmd ++ " " ++ Str.join " " services)
       (Some (default false _pipe)) (Some (default true _check)).

Definition ComposeStack_up (services : list string)
    (_pipe _check : option bool) (kw : kwargs) : M CompletedProcess :=
  let cmd := append_cmd_flags "docker-compose up" kw in
  _run (cmd ++ " " ++ Str.join " " services)
       (Some (default false _pipe)) (Some (default true _check)).

Definition ComposeStack_down
    (_pipe _check : option bool) (kw : kwargs) : M CompletedProcess :=
  let cmd := append_cmd_flags "docker-compose down" kw in
  _run cmd (Some (default false _pipe)) (Some (default true _check)).

Definition ComposeStack_restart (services : option (list string))
    (_pipe _check : option bool) (kw : kwargs) : M CompletedProcess :=
  let services := match services with None => [] | Some l => l end in
  let cmd := append_cmd_flags "docker-compose restart" kw in
  _run (cmd ++ " " ++ Str.join " " services)
       (Some (default false _pipe)) (Some (default true _check)).

(** The keyword arguments [ps] is left with after its own adjustment. *)
Definition ComposeStack_ps_kwargs (kw : kwargs) : kwargs :=
  if Dict.mem "filter" kw && negb (Dict.mem "services" kw)
  then Dict.set "services" (VBool true) kw
  else kw.

Definition ComposeStack_ps (services : list string)
    (_pipe _check : option bool) (kw : kwargs) : M CompletedProcess :=
  let kw := ComposeStack_ps_kwargs kw in
  let cmd := append_cmd_flags "docker-compose ps" kw in
  res <- _run (cmd ++ " " ++ Str.join " " services)
              (Some (default true _pipe)) (Some (default false _check)) ;;
  ret res.

Definition ComposeStack_count_services (filter : option pyval) : M nat :=
  services <- ComposeStack_ps [] None None [("filter", default VNone filter)] ;;
  match stdout services with
  | Some out => ret (length (py_splitlines rt out))
  | None => raise (AttributeError "splitlines")
  end.

Definition ComposeStack_logs (services : list string)
    (_pipe _check : option bool) (kw : kwargs) : M CompletedProcess :=
  let cmd := append_cmd_flags "docker-compose logs" kw in
  _run (cmd ++ " " ++ Str.join " " services) None None.

Definition ComposeStack_exec (service cmd : string)
    (_pipe _check : option bool) (kw : kwargs) : M CompletedProcess :=
  let exec := append_cmd_flags "docker-compose exec" kw in
  _run (exec ++ " " ++ service ++ " " ++ Str.join " " (Str.chars cmd))
       (Some (default false _pipe)) (Some (default true _check)).

Definition ComposeStack_run (service cmd : string)
    (_pipe _check : option bool) (kw : kwargs) : M CompletedProcess :=
  let kw := if Nat.eqb (length kw) 0 then [("rm", VBool true)] else kw in
  let run := append_cmd_flags "docker-compose run" kw in
  _run (run ++ " " ++ service ++ " " ++ cmd)
       (Some (default false _pipe)) (Some (default true _check)).

Definition ComposeStack_inspect (service : string) (replica_id : option Z)
    (_pipe _check : option bool) (kw : kwargs) : M CompletedProcess :=
  let cmd := append_cmd_flags "docker inspect" kw in
  o <- get_self ;;
  _run (cmd ++ " " ++ name o ++ "_" ++ service ++ "_"
            ++ Str.decimal (default 1%Z replica_id))
       (Some (default false _pipe)) (Some (default true _check)).

Definition ComposeStack_raw (args : list string) : M CompletedProcess :=
  let cmd := "docker-compose " ++ Str.join " " args in
  _run cmd None None.

Definition ComposeStack_get_ip_address (service network : string) : M data :=
  inspect <- ComposeStack_inspect service None None None [] ;;
  if negb (Z.eqb (returncode inspect) 0)
  then raise (RuntimeError ("Could not inspect service " ++ service ++ "."))
  else
    d <- lift (json_loads rt (stdout inspect)) ;;
    lift (ip_address_of d network).

(** *** SwarmStack *)

Definition SwarmStack__load_config : M unit :=
  o <- get_self ;;
  if _loaded o then ret tt
  else
    res <- _run "docker-compose config" (Some true) None ;;
    c <- lift (yaml_safe_load rt (stdout res)) ;;
    set_config c ;;;
    set_loaded true.

Definition SwarmStack_config : M data :=
  SwarmStack__load_config ;;;
  o <- get_self ;;
  ret (_config o).

(** The body binds the result of [_run] and ends: the method returns
    [None]. *)
Definition SwarmStack_check_config : M pyval :=
  res <- _run ("docker-compose config 2>&1 1>/dev/null | grep -v " ++ Str.dq
                 ++ " Compose does not support 'deploy' configuration"
                 ++ Str.dq) None None ;;
  ret VNone.

Definition SwarmStack_build (services : list string)
    (_pipe _check : option bool) (kw : kwargs) : M CompletedProcess :=
  let cmd := append_cmd_flags "docker-compose build" kw in
  let cmd := cmd ++ " " ++ Str.join " " services ++ " 2>&1 | grep -v "
               ++ Str.dq ++ "External secrets are not available" ++ Str.dq in
  _run cmd (Some (default false _pipe)) (Some (default true _check)).

Definition SwarmStack_push (services : list string)
    (_pipe _check : option bool) (kw : kwargs) : M CompletedProcess :=
  let cmd := append_cmd_flags "docker-compose push" kw in
  _run (cmd ++ " " ++ Str.join " " services)
       (Some (default false _pipe)) (Some (default true _check)).

(** The keyword arguments [up] encodes: the two defaults go in only where
    the caller gave no value under that very key. *)
Definition SwarmStack_up_kwargs (kw : kwargs) : kwargs :=
  Dict.setdefault "prune" (VBool true)
    (Dict.setdefault "resolve-image" (VScalar (SStr "never")) kw).

Definition SwarmStack_up (services : list string)
    (_pipe _check : option bool) (kw : kwargs) : M CompletedProcess :=
  let kw := SwarmStack_up_kwargs kw in
  cfg <- SwarmStack_config ;;
  file <- lift (getitem cfg "file") ;;
  let cmd :=
    append_cmd_flags ("docker stack deploy -c " ++ str_data rt file ++ " ") kw in
  o <- get_self ;;
  _run (cmd ++ " " ++ name o)
       (Some (default false _pipe)) (Some (default true _check)).

Definition SwarmStack_down
    (_pipe _check : option bool) (kw : kwargs) : M CompletedProcess :=
  let cmd := append_cmd_flags "docker stack rm" kw in
  o <- get_self ;;
  _run (cmd ++ " " ++ name o)
       (Some (default false _pipe)) (Some (default true _check)).

(** The chain [restart] hands to the Executor for a list of services. *)
Definition SwarmStack_restart_cmd (kw : kwargs) (services : list string) : string :=
  let kw := Dict.set "force" (VBool true) kw in
  let basecmd := append_cmd_flags "docker service update " kw in
  let cmd := map (fun svc => basecmd ++ " " ++ svc) services in
  Str.join " && " cmd.

Definition SwarmStack_restart (services : option (list string))
    (_pipe _check : option bool) (kw : kwargs) : M CompletedProcess :=
  services <- match services with
              | None =>
                  cfg <- SwarmStack_config ;;
                  svcs <- lift (getitem cfg "services") ;;
                  lift (data_keys svcs)
              | Some l => ret l
              end ;;
  _run (SwarmStack_restart_cmd kw services)
       (Some (default false _pipe)) (Some (default true _check)).

Definition SwarmStack_ps (services : list string)
    (_pipe _check : option bool) (kw : kwargs) : M CompletedProcess :=
  let filter := match Dict.get "filter" kw with
                | None => VTuple []
                | Some v => v
                end in
  let kw := Dict.set "filter" filter kw in
  o <- get_self ;;
  filter <- lift (iadd_str filter
                    ("label=com.docker.stack.namespace=" ++ name o)) ;;
  let kw := Dict.set "filter" filter kw in
  let cmd := append_cmd_flags "docker service ls" kw in
  res <- _run (cmd ++ " " ++ Str.join " " services)
              (Some (default true _pipe)) (Some (default false _check)) ;;
  ret res.

Definition SwarmStack_count_services (filter : option pyval) : M nat :=
  services <- SwarmStack_ps [] None None [("filter", default VNone filter)] ;;
  match stdout services with
  | Some out => ret (length (py_splitlines rt out))
  | None => raise (AttributeError "splitlines")
  end.

Definition SwarmStack_logs (services : list string)
    (_pipe _check : option bool) (kw : kwargs) : M CompletedProcess :=
  let cmd := append_cmd_flags "docker-compose logs" kw in
  _run (cmd ++ " " ++ Str.join " " services)
       (Some (default false _pipe)) (Some (default true _check)).

Definition SwarmStack_exec (service cmd : string)
    (_pipe _check : option bool) (kw : kwargs) : M CompletedProcess :=
  let basecmd := append_cmd_flags "docker-compose exec" kw in
  _run (basecmd ++ " " ++ service ++ " " ++ Str.join " " (Str.chars cmd))
       (Some (default false _pipe)) (Some (default true _check)).

Definition SwarmStack_run (service cmd : string)
    (_pipe _check : option bool) (kw : kwargs) : M CompletedProcess :=
  let kw := if Nat.eqb (length kw) 0 then [("rm", VBool true)] else kw in
  let run := append_cmd_flags "docker-compose run" kw in
  _run (run ++ " " ++ service ++ " " ++ cmd)
       (Some (default false _pipe)) (Some (default true _check)).

Definition SwarmStack_inspect (service : string) (replica_id : option Z)
    (_pipe _check : option bool) (kw : kwargs) : M CompletedProcess :=
  let cmd := append_cmd_flags "docker inspect" kw in
  o <- get_self ;;
  _run (cmd ++ " " ++ name o ++ "_" ++ service ++ "_"
            ++ Str.decimal (default 1%Z replica_id))
       (Some (default false _pipe)) (Some (default true _check)).

(** *** Attribute lookup

    The names each class body defines.  [BaseStack] only declares abstract
    methods, and both classes override all of them. *)
Definition BaseStack_methods : list string :=
  ["config"; "build"; "push"; "up"; "down"; "restart"; "ps";
   "count_services"; "logs"; "exec"; "run"; "inspect"].

Definition class_methods (b : Backend) : list string :=
  match b with
  | ComposeStack =>
      ["__init__"; "config"; "_load_config"; "check_config"; "build"; "push";
       "up"; "down"; "restart"; "ps"; "count_services"; "logs"; "exec";
       "run"; "inspect"; "raw"; "get_ip_address"; "_run"]
  | SwarmStack =>
      ["__init__"; "config"; "_load_config"; "check_config"; "build"; "push";
       "up"; "down"; "restart"; "ps"; "count_services"; "logs"; "exec";
       "run"; "inspect"; "_run"]
  end.


(** [stack.get_ip_address(service, network)] on a stack of either class. *)
Definition get_ip_address (service network : string) : M data :=
  o <- get_self ;;
  match cls o with
  | ComposeStack => ComposeStack_get_ip_address service network
  | SwarmStack => raise (AttributeError "get_ip_address")
  end.

(** [stack.config] on a stack of either class. *)
Definition config : M data :=
  o <- get_self ;;
  match cls o with
  | ComposeStack => ComposeStack_config
  | SwarmStack => SwarmStack_config
  end.

(** ** The factory *)

Record Context : Type := {
  ctx_executor : Executor;
  ctx_config : Dict.t data
}.

Definition load_stack (ctx : Context) (stack_name : string) : result StackObj :=
  let executor := ctx_executor ctx in
  let config := ctx_config ctx in
  match Dict.get "stacks" config with
  | None =>
      inl (BadParameter ("No top key " ++ Str.dq ++ "stacks" ++ Str.dq
                           ++ " found in the config."))
  | Some (DDict items) =>
      match default DNone (Dict.get stack_name items) with
      | DNone =>
          inl (BadParameter ("Stack " ++ stack_name
                               ++ " not defined in the config."))
      | DDict stack_config =>
          let stack_path := default DNone (Dict.get "path" stack_config) in
          let stack_path :=
            if is_none stack_path then DStr (os_getcwd rt) else stack_path in
          let stack_file := default DNone (Dict.get "file" stack_config) in
          if is_none stack_file
          then
            (* the message is formatted first, from stack_config['name'] *)
            match Dict.get "name" stack_config with
            | None => inl (KeyError "name")
            | Some n =>
                inl (RuntimeError
                       ("No property " ++ Str.dq ++ "file" ++ Str.dq
                          ++ " found in the config of " ++ Str.dq
                          ++ str_data rt n ++ Str.dq ++ " stack."))
            end
          else
            if Dict.mem "swarm" stack_config
               && truthy (default DNone (Dict.get "swarm" stack_config))
            then inr (SwarmStack_init executor stack_name stack_file stack_path)
            else inr (ComposeStack_init rt executor stack_name
                        stack_file stack_path)
      | _ => inl (AttributeError "get")
      end
  | Some _ => inl (AttributeError "items")
  end.

End Methods.

(** ** Concrete collaborators, for running the model *)

Module Sample.

(** An Executor whose every command exits with 0 and prints a rendered
    configuration. *)
Definition ok_executor : Executor :=
  fun _ _ => inr {| returncode := 0;
                    stdout := Some "services: {web: {}, db: {}}";
                    stderr := None |}.

(** An Executor whose every command exits with 1. *)
Definition nonzero_executor : Executor :=
  fun _ _ => inr {| returncode := 1; stdout := None; stderr := None |}.

(** An Executor that raises on every command, as [Executor.run] does for a
    command that fails while [check] is in force. *)
Definition raising_executor : Executor :=
  fun _ _ => inl (External "CalledProcessError").

Definition rendered : data :=
  DDict [("file", DStr "stack.yml");
         ("services", DDict [("web", DDict []); ("db", DDict [])])].

Definition inspected : data :=
  DList [DDict [("NetworkSettings",
                 DDict [("Networks",
                         DDict [("front",
                                 DDict [("IPAddress", DStr "10.0.0.2")])])])]].

Definition rt : Runtime :=
  {| yaml_safe_load := fun _ => inr rendered;
     json_loads := fun _ => inr inspected;
     py_repr := fun _ => "<repr>";
     py_splitlines := fun s => [s];
     os_environ := [("HOME", "/root")];
     os_getcwd := "/srv" |}.

Definition compose (e : Executor) : StackObj :=
  ComposeStack_init rt e "web" (DStr "docker-compose.yml") (DStr "/srv").

Definition swarm (e : Executor) : StackObj :=
  SwarmStack_init e "web" (DStr "stack.yml") (DStr "/srv").

Definition fresh (o : StackObj) : state := {| self := o; trace := [] |}.

(** A fresh Swarm stack, and the same once [config] was read. *)
Definition swarm0 : state := fresh (swarm ok_executor).

Definition swarm1 : state :=
  {| self :=
       {| cls := SwarmStack; name := "web"; _executor := ok_executor;
          _env := [("COMPOSE_FILE", DStr "stack.yml")];
          _basedir := DStr "/srv"; _loaded := true; _config := rendered |};
     trace :=
       [{| inv_cmd := "docker-compose config"; inv_pipe := Some true;
           inv_check := None;
           inv_env := [("COMPOSE_FILE", DStr "stack.yml")];
           inv_cwd := DStr "/srv" |}] |}.


(** A configuration whose only stack has no [file]. *)
Definition ctx_no_file : Context :=
  {| ctx_executor := ok_executor;
     ctx_config := [("stacks", DDict [("api", DDict [])])] |}.

End Sample.

(** ** Notions the statements use *)

(** The invocation [_run] builds for an instance. *)
Definition invocation_of (o : StackObj) (cmd : string) (pipe check : option bool)
    : invocation :=
  {| inv_cmd := cmd; inv_pipe := pipe; inv_check := check;
     inv_env := _env o; inv_cwd := _basedir o |}.

(** What [tuple += str] raises. *)
Definition tuple_plus_str : exn :=
  TypeError ("can only concatenate tuple (not " ++ Str.dq ++ "str" ++ Str.dq
               ++ ") to tuple").

(** The command of [_load_config], by class. *)
Definition render_cmd (b : Backend) : string :=
  match b with
  | ComposeStack => "docker-compose config 2>/dev/null"
  | SwarmStack => "docker-compose config"
  end.

(** The invocation [_load_config] dispatches: output captured, [check] left
    to the Executor. *)
Definition render_invocation (o : StackObj) : invocation :=
  invocation_of o (render_cmd (cls o)) (Some true) None.

(** The instance once [_load_config] has stored a configuration. *)
Definition resolved (o : StackObj) (c : data) : StackObj :=
  {| cls := cls o; name := name o; _executor := _executor o; _env := _env o;
     _basedir := _basedir o; _loaded := true; _config := c |}.

Definition dispatched (st : state) (i : invocation) : state :=
  {| self := self st; trace := (trace st ++ [i])%list |}.

Definition is_render (b : Backend) (i : invocation) : bool :=
  String.eqb (inv_cmd i) (render_cmd b).

Definition render_count (b : Backend) (tr : list invocation) : nat :=
  length (filter (is_render b) tr).

(** [n] accesses to [stack.config] one after the other, the caller going on
    after an access that raised. *)
Fixpoint access_config (rt : Runtime) (n : nat) (st : state)
    : list (result data) * state :=
  match n with
  | O => ([], st)
  | S k =>
      let (r, st') := config rt st in
      let (rs, st'') := access_config rt k st' in
      (r :: rs, st'')
  end.

(** The commands of [check_config]. *)
Definition ComposeStack_check_cmd : string :=
  "docker-compose config 2>&1 1>/dev/null".

Definition SwarmStack_check_cmd : string :=
  "docker-compose config 2>&1 1>/dev/null | grep -v " ++ Str.dq
    ++ " Compose does not support 'deploy' configuration" ++ Str.dq.

(** The invocation of [self.inspect(service)]: first replica, no capture,
    check. *)
Definition inspect_invocation (o : StackObj) (service : string) : invocation :=
  invocation_of o ("docker inspect " ++ name o ++ "_" ++ service ++ "_1")
    (Some false) (Some true).

(** The attributes the constructor sets and no method assigns again. *)
Definition same_identity (o o' : StackObj) : Prop :=
  cls o' = cls o /\ name o' = name o /\ _executor o' = _executor o
  /\ _env o' = _env o /\ _basedir o' = _basedir o.

(** An invocation made with the environment and directory of an instance. *)
Definition carries_environment (o : StackObj) (i : invocation) : Prop :=
  inv_env i = _env o /\ inv_cwd i = _basedir o.

(** A computation that leaves the identity of the instance alone, only adds
    to the log of the Executor, and adds only invocations made with the
    environment and directory of the instance. *)
Definition keeps_environment {A} (m : M A) : Prop :=
  forall st,
    same_identity (self st) (self (snd (m st)))
    /\ exists new,
         trace (snd (m st)) = (trace st ++ new)%list
         /\ Forall (carries_environment (self st)) new.

(** How many results are exceptions, and whether one is a value. *)
Fixpoint failures {A} (rs : list (result A)) : nat :=
  match rs with
  | [] => 0
  | inl _ :: rest => S (failures rest)
  | inr _ :: rest => failures rest
  end.

Fixpoint any_success {A} (rs : list (result A)) : bool :=
  match rs with
  | [] => false
  | inl _ :: rest => any_success rest
  | inr _ :: rest => true
  end.

(** The label [SwarmStack.ps] adds to the filter. *)
Definition namespace_label (o : StackObj) : string :=
  "label=com.docker.stack.namespace=" ++ name o.

(** The invocation of [ComposeStack.count_services]: [ps] with the filter it
    was given and the services toggle [ps] adds, no service names. *)
Definition count_services_invocation (o : StackObj) (filter : option pyval)
    : invocation :=
  invocation_of o
    (append_cmd_flags "docker-compose ps"
       [("filter", default VNone filter); ("services", VBool true)] ++ " ")
    (Some true) (Some false).

(** ** Dictionaries and flags: basic facts *)

Lemma dict_mem_get {V} (k : string) (d : Dict.t V) :
  Dict.mem k d = false <-> Dict.get k d = None.
Proof.
  unfold Dict.mem. destruct (Dict.get k d); split; congruence.
Qed.

Lemma dict_set_absent {V} (k : string) (v : V) (d : Dict.t V) :
  Dict.get k d = None -> Dict.set k v d = (d ++ [(k, v)])%list.
Proof.
  induction d as [| [k' v'] rest IH]; simpl; intros H.
  - reflexivity.
  - destruct (String.eqb k k'); [discriminate |].
    now rewrite IH.
Qed.

Lemma dict_get_set_same {V} (k : string) (v : V) (d : Dict.t V) :
  Dict.get k (Dict.set k v d) = Some v.
Proof.
  induction d as [| [k' v'] rest IH]; simpl.
  - now rewrite String.eqb_refl.
  - destruct (String.eqb k k') eqn:E; simpl; rewrite E; auto.
Qed.




Lemma encode_flags_app (a b : kwargs) :
  Flags.encode_flags (a ++ b)%list
  = (Flags.encode_flags a ++ Flags.encode_flags b)%list.
Proof. unfold Flags.encode_flags. apply flat_map_app. Qed.

Lemma string_app_assoc (a b c : string) : (a ++ b) ++ c = a ++ (b ++ c).
Proof.
  induction a as [| x a IH]; simpl.
  - reflexivity.
  - now rewrite IH.
Qed.

Lemma render_app (a b : list string) :
  Flags.render (a ++ b)%list = Flags.render a ++ Flags.render b.
Proof.
  induction a as [| f a IH]; simpl.
  - reflexivity.
  - rewrite IH. now rewrite string_app_assoc.
Qed.

Lemma occurs_in_middle (pre sub post : string) :
  Str.occurs_in sub (pre ++ sub ++ post).
Proof. now exists pre, post. Qed.

(** What a flag set encodes is in the command the encoder returns. *)
Lemma render_occurs (flags : list string) (f : string) :
  In f flags -> Str.occurs_in (" " ++ f) (Flags.render flags).
Proof.
  induction flags as [| g rest IH]; simpl; intros H.
  - contradiction.
  - destruct H as [-> | H].
    + now exists EmptyString, (Flags.render rest).
    + destruct (IH H) as (pre & post & E).
      exists (" " ++ g ++ pre), post.
      rewrite E, !string_app_assoc. reflexivity.
Qed.

Lemma occurs_in_context (sub s pre post : string) :
  Str.occurs_in sub s -> Str.occurs_in sub (pre ++ s ++ post).
Proof.
  intros (a & b & ->).
  exists (pre ++ a), (b ++ post).
  now rewrite !string_app_assoc.
Qed.

(** ** [_run]: one call, one invocation *)

Lemma run_dispatches (cmd : string) (pipe check : option bool) (st : state) :
  _run cmd pipe check st
  = (_executor (self st) (trace st) (invocation_of (self st) cmd pipe check),
     {| self := self st;
        trace := (trace st ++ [invocation_of (self st) cmd pipe check])%list |}).
Proof. reflexivity. Qed.

(** ** [SwarmStack.ps] and the namespace filter *)

(** C1: [SwarmStack.ps] called without a [filter] starts from the empty tuple
    and adds the namespace label to it with [+=]; the label is a parenthesised
    string, not a one-element tuple, so the addition raises [TypeError] and
    the Executor is never reached: no command, hence no namespace filter
    token, is dispatched. *)
Theorem SwarmStack_ps_without_filter_raises
    (services : list string) (_pipe _check : option bool) (kw : kwargs)
    (st : state) :
  Dict.get "filter" kw = None ->
  SwarmStack_ps services _pipe _check kw st = (inl tuple_plus_str, st).
Proof.
  intros H. unfold SwarmStack_ps. rewrite H. reflexivity.
Qed.

Lemma SwarmStack_ps_without_filter_raises_witness :
  Dict.get "filter" ([] : kwargs) = None
  /\ SwarmStack_ps [] None None []
       (Sample.fresh (Sample.swarm Sample.ok_executor))
     = (inl tuple_plus_str, Sample.fresh (Sample.swarm Sample.ok_executor)).
Proof.
  split.
  - reflexivity.
  - apply (SwarmStack_ps_without_filter_raises [] None None []
             (Sample.fresh (Sample.swarm Sample.ok_executor))).
    reflexivity.
Defined.

(** A filter given as a tuple meets the same [TypeError]. *)
Lemma SwarmStack_ps_tuple_filter_raises
    (services : list string) (_pipe _check : option bool) (kw : kwargs)
    (l : list scalar) (st : state) :
  Dict.get "filter" kw = Some (VTuple l) ->
  SwarmStack_ps services _pipe _check kw st = (inl tuple_plus_str, st).
Proof.
  intros H. unfold SwarmStack_ps. rewrite H. reflexivity.
Qed.

(** A filter given as a list is extended with the characters of the label,
    one filter value each. *)
Example SwarmStack_ps_list_filter :
  trace (snd (SwarmStack_ps [] None None [("filter", VList [SStr "name=web"])]
                (Sample.fresh (Sample.swarm Sample.ok_executor))))
  = [invocation_of (Sample.swarm Sample.ok_executor)
       ("docker service ls --filter name=web"
        ++ Flags.render
             (map (fun c => "--filter " ++ c)
                (Str.chars "label=com.docker.stack.namespace=web"))
        ++ " ")
       (Some true) (Some false)].
Proof. reflexivity. Qed.

(** [count_services] calls [ps(filter=filter)]; with its default, [None], the
    addition raises as well. *)
Lemma SwarmStack_count_services_default_raises (rt : Runtime) (st : state) :
  exists msg,
    SwarmStack_count_services rt None st = (inl (TypeError msg), st).
Proof. eexists. reflexivity. Qed.

(** ** [load_stack] *)

Section Factory.

Variable rt : Runtime.
Variable ctx : Context.
Variable stack_name : string.

Lemma load_stack_no_stacks_section :
  Dict.get "stacks" (ctx_config ctx) = None ->
  exists msg, load_stack rt ctx stack_name = inl (BadParameter msg).
Proof.
  intros H. unfold load_stack. rewrite H. eexists. reflexivity.
Qed.

Lemma load_stack_unknown_stack (items : Dict.t data) :
  Dict.get "stacks" (ctx_config ctx) = Some (DDict items) ->
  Dict.get stack_name items = None ->
  load_stack rt ctx stack_name
  = inl (BadParameter ("Stack " ++ stack_name ++ " not defined in the config.")).
Proof.
  intros H1 H2. unfold load_stack. rewrite H1, H2. reflexivity.
Qed.

(** The [RuntimeError] about the missing [file] is reached only by an entry
    that has a [name] field. *)
Lemma load_stack_missing_file_named (items stack_config : Dict.t data) (n : data) :
  Dict.get "stacks" (ctx_config ctx) = Some (DDict items) ->
  Dict.get stack_name items = Some (DDict stack_config) ->
  Dict.get "file" stack_config = None ->
  Dict.get "name" stack_config = Some n ->
  exists msg, load_stack rt ctx stack_name = inl (RuntimeError msg).
Proof.
  intros H1 H2 H3 H4. unfold load_stack. rewrite H1, H2. simpl.
  rewrite H3, H4. simpl. eexists. reflexivity.
Qed.

(** C2: for a stack entry without [file], as the configuration schema has
    it (no [name] field), [load_stack] evaluates [stack_config['name']] to
    build the error message and raises [KeyError] before the intended
    error about the missing [file] exists. *)
Theorem load_stack_missing_file_raises_KeyError
    (items stack_config : Dict.t data) :
  Dict.get "stacks" (ctx_config ctx) = Some (DDict items) ->
  Dict.get stack_name items = Some (DDict stack_config) ->
  Dict.get "file" stack_config = None ->
  Dict.get "name" stack_config = None ->
  load_stack rt ctx stack_name = inl (KeyError "name").
Proof.
  intros H1 H2 H3 H4. unfold load_stack. rewrite H1, H2. simpl.
  rewrite H3, H4. reflexivity.
Qed.

(** In none of the three cases is a backend returned. *)
Lemma load_stack_returns_no_backend :
  Dict.get "stacks" (ctx_config ctx) = None
  \/ (exists items,
        Dict.get "stacks" (ctx_config ctx) = Some (DDict items)
        /\ (Dict.get stack_name items = None
            \/ exists stack_config,
                 Dict.get stack_name items = Some (DDict stack_config)
                 /\ Dict.get "file" stack_config = None)) ->
  forall o, load_stack rt ctx stack_name <> inr o.
Proof.
  intros H o. unfold load_stack.
  destruct H as [H | (items & H1 & [H2 | (sc & H2 & H3)])].
  - rewrite H. discriminate.
  - rewrite H1, H2. discriminate.
  - rewrite H1, H2. simpl. rewrite H3. simpl.
    destruct (Dict.get "name" sc); discriminate.
Qed.

End Factory.

(** An entry with a [file] gives a Compose stack rooted in the current
    directory, and a Swarm stack when [swarm] is set. *)
Example load_stack_compose :
  load_stack Sample.rt
    {| ctx_executor := Sample.ok_executor;
       ctx_config :=
         [("stacks", DDict [("api", DDict [("file", DStr "docker-compose.yml")])])] |}
    "api"
  = inr (ComposeStack_init Sample.rt Sample.ok_executor "api"
           (DStr "docker-compose.yml") (DStr "/srv")).
Proof. reflexivity. Qed.

Example load_stack_swarm :
  load_stack Sample.rt
    {| ctx_executor := Sample.ok_executor;
       ctx_config :=
         [("stacks",
           DDict [("api", DDict [("file", DStr "x.yml"); ("swarm", DBool true)])])] |}
    "api"
  = inr (SwarmStack_init Sample.ok_executor "api" (DStr "x.yml") (DStr "/srv")).
Proof. reflexivity. Qed.

Example load_stack_no_stack_defined :
  load_stack Sample.rt
    {| ctx_executor := Sample.ok_executor; ctx_config := [("stacks", DDict [])] |}
    "api"
  = inl (BadParameter "Stack api not defined in the config.").
Proof. reflexivity. Qed.

Lemma load_stack_missing_file_raises_KeyError_witness :
  Dict.get "stacks" (ctx_config Sample.ctx_no_file)
  = Some (DDict [("api", DDict [])])
  /\ Dict.get "api" [("api", DDict [])] = Some (DDict [])
  /\ Dict.get "file" ([] : Dict.t data) = None
  /\ Dict.get "name" ([] : Dict.t data) = None
  /\ load_stack Sample.rt Sample.ctx_no_file "api" = inl (KeyError "name").
Proof.
  split; [reflexivity |].
  split; [reflexivity |].
  split; [reflexivity |].
  split; [reflexivity |].
  apply (load_stack_missing_file_raises_KeyError Sample.rt Sample.ctx_no_file
           "api" [("api", DDict [])] []); reflexivity.
Defined.

(** ** The [config] property *)

Section Config.

Variable rt : Runtime.

Lemma config_cached (st : state) :
  _loaded (self st) = true ->
  config rt st = (inr (_config (self st)), st).
Proof.
  intros H. unfold config, bind, get_self.
  destruct (cls (self st));
    [unfold ComposeStack_config, ComposeStack__load_config
    | unfold SwarmStack_config, SwarmStack__load_config];
    unfold bind, get_self; rewrite H; reflexivity.
Qed.

Lemma config_first_access (st : state) :
  _loaded (self st) = false ->
  config rt st
  = match _executor (self st) (trace st) (render_invocation (self st)) with
    | inl e => (inl e, dispatched st (render_invocation (self st)))
    | inr res =>
        match yaml_safe_load rt (stdout res) with
        | inl e => (inl e, dispatched st (render_invocation (self st)))
        | inr c =>
            (inr c,
             {| self := resolved (self st) c;
                trace := (trace st ++ [render_invocation (self st)])%list |})
        end
    end.
Proof.
  intros H. unfold config, bind, get_self, render_invocation.
  destruct (cls (self st)) eqn:C;
    [unfold ComposeStack_config, ComposeStack__load_config
    | unfold SwarmStack_config, SwarmStack__load_config];
    unfold bind, get_self; rewrite H; rewrite run_dispatches;
    simpl render_cmd;
    (destruct (_executor (self st) (trace st) _) as [e | res];
     [reflexivity |]);
    unfold lift;
    (destruct (yaml_safe_load rt (stdout res)) as [e | c];
     [reflexivity |]);
    reflexivity.
Qed.

(** After a failed access the instance is as unresolved as before. *)
Lemma config_failure_not_cached (st st' : state) (e : exn) :
  _loaded (self st) = false ->
  config rt st = (inl e, st') ->
  _loaded (self st') = false
  /\ trace st' = (trace st ++ [render_invocation (self st)])%list.
Proof.
  intros H E. rewrite (config_first_access st H) in E.
  destruct (_executor (self st) (trace st) _) as [e' | res].
  - inversion E; subst. simpl. auto.
  - destruct (yaml_safe_load rt (stdout res)) as [e' | c].
    + inversion E; subst. simpl. auto.
    + discriminate.
Qed.

Lemma config_success (st st' : state) (c : data) :
  _loaded (self st) = false ->
  config rt st = (inr c, st') ->
  st' = {| self := resolved (self st) c;
           trace := (trace st ++ [render_invocation (self st)])%list |}.
Proof.
  intros H E. rewrite (config_first_access st H) in E.
  destruct (_executor (self st) (trace st) _) as [e' | res];
    [discriminate |].
  destruct (yaml_safe_load rt (stdout res)) as [e' | c'];
    [discriminate |].
  now inversion E.
Qed.

Lemma access_config_cached (n : nat) (st : state) :
  _loaded (self st) = true ->
  access_config rt n st = (repeat (inr (_config (self st))) n, st).
Proof.
  intros H. induction n as [| n IH]; simpl.
  - reflexivity.
  - rewrite (config_cached st H), IH. reflexivity.
Qed.

Lemma render_count_app (b : Backend) (tr tr' : list invocation) :
  render_count b (tr ++ tr')%list = render_count b tr + render_count b tr'.
Proof.
  unfold render_count. now rewrite filter_app, length_app.
Qed.

Lemma render_invocation_counts (o : StackObj) :
  render_count (cls o) [render_invocation o] = 1.
Proof.
  unfold render_count. simpl. unfold is_render. simpl.
  now rewrite String.eqb_refl.
Qed.

(** C4 (amended): on an instance that is not yet resolved, if the first
    access to [config] succeeds, then any number of accesses return the
    same configuration and dispatch the render command exactly once, at the
    first access: the later ones dispatch nothing. *)
Theorem config_resolves_once (st st1 : state) (c : data) (n : nat) :
  _loaded (self st) = false ->
  config rt st = (inr c, st1) ->
  fst (access_config rt (S n) st) = repeat (inr c) (S n)
  /\ trace (snd (access_config rt (S n) st))
     = (trace st ++ [render_invocation (self st)])%list
  /\ render_count (cls (self st)) (trace (snd (access_config rt (S n) st)))
     = render_count (cls (self st)) (trace st) + 1.
Proof.
  intros H E.
  pose proof (config_success st st1 c H E) as ->.
  simpl access_config. rewrite E.
  rewrite access_config_cached by reflexivity.
  simpl. repeat split.
  rewrite render_count_app. f_equal. apply render_invocation_counts.
Qed.

End Config.

Lemma config_resolves_once_witness :
  _loaded (self (Sample.fresh (Sample.swarm Sample.ok_executor))) = false
  /\ trace (snd (access_config Sample.rt 3
                   (Sample.fresh (Sample.swarm Sample.ok_executor))))
     = [render_invocation (Sample.swarm Sample.ok_executor)].
Proof.
  split; [reflexivity |].
  apply (config_resolves_once Sample.rt
           (Sample.fresh (Sample.swarm Sample.ok_executor))
           {| self := resolved (Sample.swarm Sample.ok_executor) Sample.rendered;
              trace := [render_invocation (Sample.swarm Sample.ok_executor)] |}
           Sample.rendered 2); reflexivity.
Defined.

(** An access that fails caches nothing, and the next access dispatches the
    render command again: two accesses, two render invocations. *)
Lemma config_failed_render_dispatched_again :
  render_count ComposeStack
    (trace (snd (access_config Sample.rt 2
                   (Sample.fresh (Sample.compose Sample.raising_executor)))))
  = 2.
Proof. reflexivity. Qed.

(** ** [SwarmStack.restart] and [SwarmStack.up] *)

Lemma dict_set_cons {V} (k k' : string) (v v' : V) (rest : Dict.t V) :
  Dict.set k v ((k', v') :: rest)
  = if String.eqb k k' then (k', v) :: rest else (k', v') :: Dict.set k v rest.
Proof. reflexivity. Qed.

Lemma encode_flags_cons (kv : string * pyval) (rest : kwargs) :
  encode_flags (kv :: rest) = (encode_flag kv ++ encode_flags rest)%list.
Proof. reflexivity. Qed.

Lemma force_flag_encoded (kw : kwargs) :
  In "--force" (encode_flags (Dict.set "force" (VBool true) kw)).
Proof.
  induction kw as [| [k v] rest IH].
  - now left.
  - rewrite dict_set_cons.
    destruct (String.eqb "force" k) eqn:E; rewrite encode_flags_cons.
    + apply String.eqb_eq in E. subst k. apply in_or_app. left. now left.
    + apply in_or_app. now right.
Qed.



Section Swarm.

Variable rt : Runtime.


(** C3: [SwarmStack.restart] with [services=None] takes the service names
    from the keys of [config['services']], in their order, and hands the
    Executor one command: for each name the base command
    [docker service update] with the flags of the options (among which
    [--force], set by the method) followed by the name, the parts joined
    with [ && ].  The invocation carries [check=True] unless the caller
    said otherwise. *)
Theorem SwarmStack_restart_all_services
    (_pipe _check : option bool) (kw : kwargs) (st st' : state)
    (cfg : data) (svcs : Dict.t data) :
  SwarmStack_config rt st = (inr cfg, st') ->
  getitem cfg "services" = inr (DDict svcs) ->
  SwarmStack_restart rt None _pipe _check kw st
  = _run (Str.join " && "
            (map (fun svc =>
                    append_cmd_flags "docker service update "
                      (Dict.set "force" (VBool true) kw) ++ " " ++ svc)
               (Dict.keys svcs)))
         (Some (default false _pipe)) (Some (default true _check)) st'
  /\ length (trace (snd (SwarmStack_restart rt None _pipe _check kw st)))
     = S (length (trace st'))
  /\ In "--force" (encode_flags (Dict.set "force" (VBool true) kw))
  /\ (kw = [] ->
      SwarmStack_restart_cmd kw (Dict.keys svcs)
      = Str.join " && "
          (map (fun svc => "docker service update  --force " ++ svc)
             (Dict.keys svcs)))
  /\ (_check = None ->
      forall i,
        last (trace (snd (SwarmStack_restart rt None _pipe _check kw st))) i
        = invocation_of (self st') (SwarmStack_restart_cmd kw (Dict.keys svcs))
            (Some (default false _pipe)) (Some true)).
Proof.
  intros E G.
  assert (R : SwarmStack_restart rt None _pipe _check kw st
              = _run (SwarmStack_restart_cmd kw (Dict.keys svcs))
                  (Some (default false _pipe)) (Some (default true _check)) st').
  { unfold SwarmStack_restart, bind at 1. unfold bind at 1. rewrite E.
    unfold lift, bind. rewrite G. reflexivity. }
  split; [exact R |].
  split.
  { rewrite R, run_dispatches. simpl. rewrite length_app. simpl. lia. }
  split; [apply force_flag_encoded |].
  split.
  { intros ->. reflexivity. }
  intros -> i. rewrite R, run_dispatches. simpl.
  now rewrite last_last.
Qed.


End Swarm.

Lemma SwarmStack_restart_all_services_witness :
  SwarmStack_config Sample.rt Sample.swarm0 = (inr Sample.rendered, Sample.swarm1)
  /\ getitem Sample.rendered "services"
     = inr (DDict [("web", DDict []); ("db", DDict [])])
  /\ SwarmStack_restart Sample.rt None None None [] Sample.swarm0
     = _run "docker service update  --force web && docker service update  --force db"
         (Some false) (Some true) Sample.swarm1.
Proof.
  split; [reflexivity |].
  split; [reflexivity |].
  exact (proj1 (SwarmStack_restart_all_services Sample.rt None None []
                  Sample.swarm0 Sample.swarm1 Sample.rendered
                  [("web", DDict []); ("db", DDict [])] eq_refl eq_refl)).
Defined.


(** A caller who turns pruning off and picks another image resolution gets
    neither default. *)
Example SwarmStack_up_overridden :
  map inv_cmd
    (trace (snd (SwarmStack_up Sample.rt [] None None
                   [("prune", VBool false);
                    ("resolve-image", VScalar (SStr "always"))]
                   Sample.swarm1)))
  = ["docker-compose config";
     "docker stack deploy -c stack.yml  --resolve-image always web"].
Proof. reflexivity. Qed.


(** An explicit list of services is restarted without reading [config]. *)
Example SwarmStack_restart_explicit :
  map inv_cmd
    (trace (snd (SwarmStack_restart Sample.rt (Some ["db"]) None None
                   [("detach", VBool true)] Sample.swarm0)))
  = ["docker service update  --detach --force db"].
Proof. reflexivity. Qed.

(** ** [ComposeStack.ps] *)

(** Returning what [_run] returned is [_run]. *)
Lemma run_then_ret (cmd : string) (pipe check : option bool) (st : state) :
  (res <- _run cmd pipe check ;; ret res) st = _run cmd pipe check st.
Proof.
  unfold bind. rewrite run_dispatches.
  destruct (_executor (self st) (trace st) _); reflexivity.
Qed.

(** C7: when the options of [ComposeStack.ps] hold [filter] and no
    [services], the method adds [services=True] after them; the flag set then
    encodes [--services], and the command handed to the Executor contains
    it. *)
Theorem ComposeStack_ps_filter_sets_services
    (services : list string) (_pipe _check : option bool) (kw : kwargs)
    (st : state) :
  Dict.mem "filter" kw = true ->
  Dict.mem "services" kw = false ->
  ComposeStack_ps_kwargs kw = (kw ++ [("services", VBool true)])%list
  /\ In "--services" (encode_flags (ComposeStack_ps_kwargs kw))
  /\ ComposeStack_ps services _pipe _check kw st
     = _run ("docker-compose ps" ++ render (encode_flags kw) ++ " --services"
               ++ " " ++ Str.join " " services)
         (Some (default true _pipe)) (Some (default false _check)) st
  /\ Str.occurs_in " --services"
       (append_cmd_flags "docker-compose ps" (ComposeStack_ps_kwargs kw)
          ++ " " ++ Str.join " " services).
Proof.
  intros F S.
  assert (K : ComposeStack_ps_kwargs kw = (kw ++ [("services", VBool true)])%list).
  { unfold ComposeStack_ps_kwargs. rewrite F, S. simpl andb. cbv iota.
    apply dict_set_absent. now apply dict_mem_get. }
  assert (C : append_cmd_flags "docker-compose ps" (ComposeStack_ps_kwargs kw)
              = "docker-compose ps" ++ render (encode_flags kw) ++ " --services").
  { unfold append_cmd_flags. rewrite K, encode_flags_app, render_app.
    reflexivity. }
  split; [exact K |].
  split.
  { rewrite K, encode_flags_app. apply in_or_app. right. now left. }
  split.
  { unfold ComposeStack_ps. rewrite run_then_ret, C.
    now rewrite !string_app_assoc. }
  rewrite C.
  exists ("docker-compose ps" ++ render (encode_flags kw)),
         (" " ++ Str.join " " services).
  now rewrite !string_app_assoc.
Qed.

Lemma ComposeStack_ps_filter_sets_services_witness :
  Dict.mem "filter" [("filter", VList [SStr "status=running"])] = true
  /\ Dict.mem "services" [("filter", VList [SStr "status=running"])] = false
  /\ ComposeStack_ps ["web"] None None [("filter", VList [SStr "status=running"])]
       (Sample.fresh (Sample.compose Sample.ok_executor))
     = _run "docker-compose ps --filter status=running --services web"
         (Some true) (Some false)
         (Sample.fresh (Sample.compose Sample.ok_executor)).
Proof.
  split; [reflexivity |].
  split; [reflexivity |].
  exact (proj1 (proj2 (proj2
           (ComposeStack_ps_filter_sets_services ["web"] None None
              [("filter", VList [SStr "status=running"])]
              (Sample.fresh (Sample.compose Sample.ok_executor))
              eq_refl eq_refl)))).
Defined.

(** Without a filter the options are encoded as given. *)
Lemma ComposeStack_ps_kwargs_no_filter (kw : kwargs) :
  Dict.mem "filter" kw = false -> ComposeStack_ps_kwargs kw = kw.
Proof. intros F. unfold ComposeStack_ps_kwargs. now rewrite F. Qed.

(** ** [exec] and [run] *)

Lemma join_chars_length (cmd : string) :
  String.length (Str.join " " (Str.chars cmd)) = 2 * String.length cmd - 1.
Proof.
  induction cmd as [| c rest IH].
  - reflexivity.
  - destruct rest as [| c' rest'].
    + reflexivity.
    + change (Str.join " " (Str.chars (String c (String c' rest'))))
        with (String c (String " " (Str.join " " (Str.chars (String c' rest'))))).
      simpl String.length in *. rewrite IH. lia.
Qed.

(** C9: [exec] of either backend puts [' '.join(cmd)] in the command, the
    characters of the string [cmd] with a space between each two (['ls']
    becomes ['l s'], and a command of [n > 0] characters takes [2n - 1]),
    while [run] of either backend appends [cmd] as it is. *)
Theorem exec_joins_characters_run_verbatim
    (service cmd : string) (_pipe _check : option bool) (kw : kwargs)
    (st : state) :
  ComposeStack_exec service cmd _pipe _check kw st
  = _run (append_cmd_flags "docker-compose exec" kw ++ " " ++ service ++ " "
            ++ Str.join " " (Str.chars cmd))
      (Some (default false _pipe)) (Some (default true _check)) st
  /\ SwarmStack_exec service cmd _pipe _check kw st
     = _run (append_cmd_flags "docker-compose exec" kw ++ " " ++ service ++ " "
               ++ Str.join " " (Str.chars cmd))
         (Some (default false _pipe)) (Some (default true _check)) st
  /\ ComposeStack_run service cmd _pipe _check kw st
     = _run (append_cmd_flags "docker-compose run"
               (if Nat.eqb (length kw) 0 then [("rm", VBool true)] else kw)
               ++ " " ++ service ++ " " ++ cmd)
         (Some (default false _pipe)) (Some (default true _check)) st
  /\ SwarmStack_run service cmd _pipe _check kw st
     = ComposeStack_run service cmd _pipe _check kw st
  /\ Str.join " " (Str.chars "ls") = "l s"
  /\ String.length (Str.join " " (Str.chars cmd)) = 2 * String.length cmd - 1
  /\ (forall c c' rest,
        Str.join " " (Str.chars (String c (String c' rest)))
        = String c (String " " (Str.join " " (Str.chars (String c' rest))))).
Proof.
  repeat (split; [reflexivity |]).
  split; [apply join_chars_length | reflexivity].
Qed.

Example exec_ls :
  map inv_cmd
    (trace (snd (ComposeStack_exec "web" "ls -l" None None []
                   (Sample.fresh (Sample.compose Sample.ok_executor)))))
  = ["docker-compose exec web l s   - l"].
Proof. reflexivity. Qed.

Example run_ls :
  map inv_cmd
    (trace (snd (ComposeStack_run "web" "ls -l" None None []
                   (Sample.fresh (Sample.compose Sample.ok_executor)))))
  = ["docker-compose run --rm web ls -l"].
Proof. reflexivity. Qed.

(** ** [check_config] *)

(** C10: whatever [CompletedProcess] the Executor returns for the check
    command, [SwarmStack.check_config] returns [None], and it never returns
    anything else; [ComposeStack.check_config] returns whether the exit code
    of its command is 0. *)
Theorem check_config_return_values (st : state) :
  (forall res,
     _executor (self st) (trace st)
       (invocation_of (self st) SwarmStack_check_cmd None None) = inr res ->
     fst (SwarmStack_check_config st) = inr VNone)
  /\ (forall v, fst (SwarmStack_check_config st) = inr v -> v = VNone)
  /\ (forall res,
        _executor (self st) (trace st)
          (invocation_of (self st) ComposeStack_check_cmd None None) = inr res ->
        fst (ComposeStack_check_config st) = inr (Z.eqb (returncode res) 0)).
Proof.
  unfold SwarmStack_check_config, ComposeStack_check_config, bind.
  rewrite !run_dispatches.
  split; [| split].
  - intros res E.
    change (_executor (self st) (trace st)
              (invocation_of (self st) SwarmStack_check_cmd None None) = inr res)
      in E.
    unfold SwarmStack_check_cmd in E. simpl in E |- *.
    now rewrite E.
  - intros v.
    destruct (_executor (self st) (trace st) _); simpl; congruence.
  - intros res E. unfold ComposeStack_check_cmd in E. now rewrite E.
Qed.

Lemma check_config_return_values_witness :
  fst (SwarmStack_check_config
         (Sample.fresh (Sample.swarm Sample.nonzero_executor))) = inr VNone
  /\ fst (ComposeStack_check_config
            (Sample.fresh (Sample.compose Sample.nonzero_executor))) = inr false.
Proof.
  split.
  - exact (proj1 (check_config_return_values
                    (Sample.fresh (Sample.swarm Sample.nonzero_executor)))
             {| returncode := 1; stdout := None; stderr := None |} eq_refl).
  - exact (proj2 (proj2 (check_config_return_values
                    (Sample.fresh (Sample.compose Sample.nonzero_executor))))
             {| returncode := 1; stdout := None; stderr := None |} eq_refl).
Defined.

(** ** The switches [_pipe] and [_check] *)

(** C5: [ComposeStack.logs] takes [_pipe] and [_check] and passes neither to
    [_run]: the invocation carries no [pipe] and no [check], whatever the
    caller gave, so two calls that differ only in the switches dispatch the
    same invocation.  [SwarmStack.logs] passes both. *)
Theorem ComposeStack_logs_drops_switches
    (services : list string) (_pipe _check : option bool) (kw : kwargs)
    (st : state) :
  ComposeStack_logs services _pipe _check kw st
  = _run (append_cmd_flags "docker-compose logs" kw ++ " "
            ++ Str.join " " services) None None st
  /\ ComposeStack_logs services _pipe _check kw st
     = ComposeStack_logs services (Some true) (Some false) kw st
  /\ SwarmStack_logs services _pipe _check kw st
     = _run (append_cmd_flags "docker-compose logs" kw ++ " "
               ++ Str.join " " services)
         (Some (default false _pipe)) (Some (default true _check)) st.
Proof. repeat split. Qed.

Example ComposeStack_logs_switches_lost :
  trace (snd (ComposeStack_logs ["web"] (Some true) (Some false) []
                (Sample.fresh (Sample.compose Sample.ok_executor))))
  = [invocation_of (Sample.compose Sample.ok_executor)
       "docker-compose logs web" None None].
Proof. reflexivity. Qed.

(** X18: the other operations pass the switches on, with their defaults:
    capture and no check for [ps], no capture and check for the rest. *)
Lemma operations_forward_switches (rt : Runtime)
    (services : list string) (service cmd : string) (replica_id : option Z)
    (_pipe _check : option bool) (kw : kwargs) (st : state) :
  let mutating := fun s => _run s (Some (default false _pipe))
                             (Some (default true _check)) st in
  let listing := fun s => _run s (Some (default true _pipe))
                            (Some (default false _check)) st in
  (exists s, ComposeStack_build services _pipe _check kw st = mutating s)
  /\ (exists s, ComposeStack_push services _pipe _check kw st = mutating s)
  /\ (exists s, ComposeStack_up services _pipe _check kw st = mutating s)
  /\ (exists s, ComposeStack_down _pipe _check kw st = mutating s)
  /\ (exists s, ComposeStack_restart (Some services) _pipe _check kw st = mutating s)
  /\ (exists s, ComposeStack_restart None _pipe _check kw st = mutating s)
  /\ (exists s, ComposeStack_ps services _pipe _check kw st = listing s)
  /\ (exists s, ComposeStack_exec service cmd _pipe _check kw st = mutating s)
  /\ (exists s, ComposeStack_run service cmd _pipe _check kw st = mutating s)
  /\ (exists s, ComposeStack_inspect service replica_id _pipe _check kw st = mutating s)
  /\ (exists s, SwarmStack_build services _pipe _check kw st = mutating s)
  /\ (exists s, SwarmStack_push services _pipe _check kw st = mutating s)
  /\ (exists s, SwarmStack_down _pipe _check kw st = mutating s)
  /\ (exists s, SwarmStack_restart rt (Some services) _pipe _check kw st = mutating s)
  /\ (exists s, SwarmStack_logs services _pipe _check kw st = mutating s)
  /\ (exists s, SwarmStack_exec service cmd _pipe _check kw st = mutating s)
  /\ (exists s, SwarmStack_run service cmd _pipe _check kw st = mutating s)
  /\ (exists s, SwarmStack_inspect service replica_id _pipe _check kw st = mutating s).
Proof.
  intros mutating listing. subst mutating listing.
  repeat (split; [eexists; reflexivity |]).
  repeat (split; [eexists; unfold ComposeStack_ps; now rewrite run_then_ret |]).
  repeat (split; [eexists; reflexivity |]).
  eexists; reflexivity.
Qed.

(** ** [get_ip_address] *)




(** * Further properties *)

(** ** The environment of an instance *)

Lemma dict_get_set_other {V} (k k' : string) (v : V) (d : Dict.t V) :
  String.eqb k' k = false ->
  Dict.get k' (Dict.set k v d) = Dict.get k' d.
Proof.
  intros N. induction d as [| [k0 v0] rest IH].
  - simpl. now rewrite N.
  - rewrite dict_set_cons. destruct (String.eqb k k0) eqn:E.
    + apply String.eqb_eq in E. subst k0.
      change (Dict.get k' ((k, v) :: rest))
        with (if String.eqb k' k then Some v else Dict.get k' rest).
      change (Dict.get k' ((k, v0) :: rest))
        with (if String.eqb k' k then Some v0 else Dict.get k' rest).
      now rewrite N.
    + change (Dict.get k' ((k0, v0) :: Dict.set k v rest))
        with (if String.eqb k' k0 then Some v0
              else Dict.get k' (Dict.set k v rest)).
      change (Dict.get k' ((k0, v0) :: rest))
        with (if String.eqb k' k0 then Some v0 else Dict.get k' rest).
      now rewrite IH.
Qed.

Lemma dict_get_map_values {V W} (f : V -> W) (k : string) (d : Dict.t V) :
  Dict.get k (map (fun kv => (fst kv, f (snd kv))) d)
  = option_map f (Dict.get k d).
Proof.
  induction d as [| [k0 v0] rest IH]; simpl.
  - reflexivity.
  - destruct (String.eqb k k0); auto.
Qed.

Lemma ComposeStack_init_compose_file
    (rt : Runtime) (executor : Executor) (stack_name : string)
    (file basedir : data) :
  Dict.get "COMPOSE_FILE"
    (_env (ComposeStack_init rt executor stack_name file basedir))
  = Some file.
Proof.
  change (_env (ComposeStack_init rt executor stack_name file basedir))
    with (Dict.set "COMPOSE_FILE" file
            (Dict.set "COMPOSE_PROJECT_NAME" (DStr stack_name)
               (map (fun kv => (fst kv, DStr (snd kv))) (os_environ rt)))).
  apply dict_get_set_same.
Qed.

(** X1: a Compose stack runs its commands with the ambient environment in
    which [COMPOSE_PROJECT_NAME] is the stack name and [COMPOSE_FILE] the
    file, whatever the ambient values of these two were, and every other
    ambient variable is kept; a Swarm stack runs them with [COMPOSE_FILE]
    alone, and inherits nothing. *)
Theorem constructor_environments
    (rt : Runtime) (executor : Executor) (stack_name : string)
    (file basedir : data) :
  Dict.get "COMPOSE_PROJECT_NAME"
    (_env (ComposeStack_init rt executor stack_name file basedir))
  = Some (DStr stack_name)
  /\ Dict.get "COMPOSE_FILE"
       (_env (ComposeStack_init rt executor stack_name file basedir))
     = Some file
  /\ (forall k,
        k <> "COMPOSE_PROJECT_NAME" -> k <> "COMPOSE_FILE" ->
        Dict.get k (_env (ComposeStack_init rt executor stack_name file basedir))
        = option_map DStr (Dict.get k (os_environ rt)))
  /\ (forall k,
        Dict.get k (_env (SwarmStack_init executor stack_name file basedir))
        = if String.eqb k "COMPOSE_FILE" then Some file else None).
Proof.
  assert (U : _env (ComposeStack_init rt executor stack_name file basedir)
              = Dict.set "COMPOSE_FILE" file
                  (Dict.set "COMPOSE_PROJECT_NAME" (DStr stack_name)
                     (map (fun kv => (fst kv, DStr (snd kv))) (os_environ rt))))
    by reflexivity.
  rewrite U. split; [| split; [| split]].
  - rewrite dict_get_set_other by reflexivity. apply dict_get_set_same.
  - apply dict_get_set_same.
  - intros k N1 N2.
    rewrite !dict_get_set_other by now apply String.eqb_neq.
    apply dict_get_map_values.
  - intros k. reflexivity.
Qed.

Lemma constructor_environments_witness :
  Dict.get "HOME" (_env (Sample.compose Sample.ok_executor))
  = Some (DStr "/root").
Proof.
  apply (proj1 (proj2 (proj2
           (constructor_environments Sample.rt Sample.ok_executor "web"
              (DStr "docker-compose.yml") (DStr "/srv")))) "HOME");
    discriminate.
Defined.

(** ** What [load_stack] returns *)

Section FactoryResult.

Variable rt : Runtime.
Variable ctx : Context.
Variable stack_name : string.

Lemma load_stack_inversion (o : StackObj) :
  load_stack rt ctx stack_name = inr o ->
  exists items stack_config file,
    Dict.get "stacks" (ctx_config ctx) = Some (DDict items)
    /\ Dict.get stack_name items = Some (DDict stack_config)
    /\ Dict.get "file" stack_config = Some file
    /\ file <> DNone
    /\ o = (if Dict.mem "swarm" stack_config
               && truthy (default DNone (Dict.get "swarm" stack_config))
            then SwarmStack_init (ctx_executor ctx) stack_name file
                   (if is_none (default DNone (Dict.get "path" stack_config))
                    then DStr (os_getcwd rt)
                    else default DNone (Dict.get "path" stack_config))
            else ComposeStack_init rt (ctx_executor ctx) stack_name file
                   (if is_none (default DNone (Dict.get "path" stack_config))
                    then DStr (os_getcwd rt)
                    else default DNone (Dict.get "path" stack_config))).
Proof.
  unfold load_stack.
  destruct (Dict.get "stacks" (ctx_config ctx)) as [stacks |] eqn:A;
    [| discriminate].
  destruct stacks as [| | | | | items]; try discriminate.
  destruct (Dict.get stack_name items) as [entry |] eqn:B; [| discriminate].
  destruct entry as [| | | | | sc]; try discriminate.
  unfold default at 1. cbv beta iota.
  destruct (Dict.get "file" sc) as [file |] eqn:F.
  - destruct (is_none (default DNone (Some file))) eqn:N.
    + destruct (Dict.get "name" sc); discriminate.
    + intros H. exists items, sc, file.
      repeat (split; [assumption || reflexivity |]).
      split.
      * intros ->. discriminate.
      * destruct (Dict.mem "swarm" sc
                  && truthy (default DNone (Dict.get "swarm" sc)));
          inversion H; reflexivity.
  - unfold default at 1. cbv beta iota. unfold is_none at 1. cbv iota.
    destruct (Dict.get "name" sc); discriminate.
Qed.

(** X2: [load_stack] returns a backend exactly when the configuration has a
    [stacks] mapping, the stack name is a key of it whose entry is a mapping,
    and that entry has a [file] that is not [None]. *)
Theorem load_stack_succeeds_iff :
  (exists o, load_stack rt ctx stack_name = inr o)
  <-> exists items stack_config file,
        Dict.get "stacks" (ctx_config ctx) = Some (DDict items)
        /\ Dict.get stack_name items = Some (DDict stack_config)
        /\ Dict.get "file" stack_config = Some file
        /\ file <> DNone.
Proof.
  split.
  - intros (o & H).
    destruct (load_stack_inversion o H) as (items & sc & file & A & B & C & D & _).
    now exists items, sc, file.
  - intros (items & sc & file & A & B & C & D).
    unfold load_stack. rewrite A, B. unfold default at 1. cbv beta iota.
    rewrite C. unfold default at 3.
    destruct file; try congruence;
      (unfold is_none at 2; cbv iota;
       destruct (Dict.mem "swarm" sc
                 && truthy (default DNone (Dict.get "swarm" sc)));
       eexists; reflexivity).
Qed.

(** X3: the backend [load_stack] returns bears the stack name and the
    Executor of the context, is not yet resolved, runs its commands with
    [COMPOSE_FILE] set to the [file] of the entry, and in the [path] of the
    entry, or in the current directory when the entry has no [path] or a
    [None] one; it is a Swarm stack exactly when the entry has a [swarm]
    field that is true. *)
Theorem load_stack_backend (o : StackObj) :
  load_stack rt ctx stack_name = inr o ->
  name o = stack_name
  /\ _executor o = ctx_executor ctx
  /\ _loaded o = false
  /\ exists items stack_config file,
       Dict.get "stacks" (ctx_config ctx) = Some (DDict items)
       /\ Dict.get stack_name items = Some (DDict stack_config)
       /\ Dict.get "file" stack_config = Some file
       /\ Dict.get "COMPOSE_FILE" (_env o) = Some file
       /\ _basedir o
          = match Dict.get "path" stack_config with
            | Some DNone | None => DStr (os_getcwd rt)
            | Some p => p
            end
       /\ (cls o = SwarmStack
           <-> exists sw, Dict.get "swarm" stack_config = Some sw
                          /\ truthy sw = true).
Proof.
  intros H.
  destruct (load_stack_inversion o H) as (items & sc & file & A & B & C & D & E).
  assert (P : (if is_none (default DNone (Dict.get "path" sc))
               then DStr (os_getcwd rt)
               else default DNone (Dict.get "path" sc))
              = match Dict.get "path" sc with
                | Some DNone | None => DStr (os_getcwd rt)
                | Some p => p
                end).
  { destruct (Dict.get "path" sc) as [[| | | | |] |]; reflexivity. }
  rewrite P in E.
  assert (S : Dict.mem "swarm" sc && truthy (default DNone (Dict.get "swarm" sc))
              = true
              <-> exists sw, Dict.get "swarm" sc = Some sw /\ truthy sw = true).
  { unfold Dict.mem. destruct (Dict.get "swarm" sc) as [sw |]; simpl.
    - split.
      + intros T. now exists sw.
      + intros (sw' & Q & T). now inversion Q; subst.
    - split; [discriminate | intros (sw' & Q & _); discriminate]. }
  destruct (Dict.mem "swarm" sc && truthy (default DNone (Dict.get "swarm" sc)))
    eqn:W; subst o.
  - repeat (split; [reflexivity |]).
    exists items, sc, file.
    repeat (split; [assumption || reflexivity |]).
    split; [intros _; now apply S | intros _; reflexivity].
  - repeat (split; [reflexivity |]).
    exists items, sc, file.
    repeat (split; [assumption |]).
    split; [apply ComposeStack_init_compose_file |].
    split; [reflexivity |].
    split; [discriminate |].
    intros X. apply S in X. discriminate.
Qed.

End FactoryResult.

Lemma load_stack_backend_witness :
  load_stack Sample.rt
    {| ctx_executor := Sample.ok_executor;
       ctx_config :=
         [("stacks",
           DDict [("api", DDict [("file", DStr "x.yml"); ("swarm", DBool true)])])] |}
    "api"
  = inr (SwarmStack_init Sample.ok_executor "api" (DStr "x.yml") (DStr "/srv"))
  /\ _loaded (SwarmStack_init Sample.ok_executor "api" (DStr "x.yml") (DStr "/srv"))
     = false.
Proof.
  split; [reflexivity |].
  exact (proj1 (proj2 (proj2
           (load_stack_backend Sample.rt
              {| ctx_executor := Sample.ok_executor;
                 ctx_config :=
                   [("stacks",
                     DDict [("api", DDict [("file", DStr "x.yml");
                                           ("swarm", DBool true)])])] |}
              "api"
              (SwarmStack_init Sample.ok_executor "api" (DStr "x.yml")
                 (DStr "/srv"))
              eq_refl)))).
Defined.

(** ** Every operation runs its commands in the environment of the instance *)

Lemma same_identity_refl (o : StackObj) : same_identity o o.
Proof. repeat split. Qed.

Lemma same_identity_trans (o1 o2 o3 : StackObj) :
  same_identity o1 o2 -> same_identity o2 o3 -> same_identity o1 o3.
Proof.
  unfold same_identity.
  intros (A1 & A2 & A3 & A4 & A5) (B1 & B2 & B3 & B4 & B5).
  repeat split; congruence.
Qed.

Lemma carries_environment_same (o o' : StackObj) (i : invocation) :
  same_identity o o' -> carries_environment o' i -> carries_environment o i.
Proof.
  unfold same_identity, carries_environment.
  intros (_ & _ & _ & E & B) (X & Y). split; congruence.
Qed.

Section KeepsEnvironment.

Context {A B : Type}.

Lemma keeps_ret (a : A) : keeps_environment (ret a).
Proof.
  intros st. split; [apply same_identity_refl |].
  exists []. split; [now rewrite app_nil_r | constructor].
Qed.

Lemma keeps_raise (e : exn) : keeps_environment (@raise A e).
Proof.
  intros st. split; [apply same_identity_refl |].
  exists []. split; [now rewrite app_nil_r | constructor].
Qed.

Lemma keeps_lift (r : result A) : keeps_environment (lift r).
Proof.
  intros st. split; [apply same_identity_refl |].
  exists []. split; [now rewrite app_nil_r | constructor].
Qed.

Lemma keeps_bind (m : M A) (k : A -> M B) :
  keeps_environment m ->
  (forall a, keeps_environment (k a)) ->
  keeps_environment (bind m k).
Proof.
  intros Hm Hk st. unfold bind.
  destruct (Hm st) as (I & new & T & F).
  destruct (m st) as [[e | a] st1]; simpl in *.
  - split; [assumption |]. now exists new.
  - destruct (Hk a st1) as (I' & new' & T' & F').
    split; [now apply (same_identity_trans _ (self st1)) |].
    exists (new ++ new')%list. split.
    + now rewrite T', T, app_assoc.
    + apply Forall_app. split; [assumption |].
      eapply Forall_impl; [| exact F'].
      intros i. now apply carries_environment_same.
Qed.

End KeepsEnvironment.

Lemma keeps_get_self : keeps_environment get_self.
Proof.
  intros st. split; [apply same_identity_refl |].
  exists []. split; [now rewrite app_nil_r | constructor].
Qed.

Lemma keeps_set_config (c : data) : keeps_environment (set_config c).
Proof.
  intros st. split; [repeat split |].
  exists []. split; [simpl; now rewrite app_nil_r | constructor].
Qed.

Lemma keeps_set_loaded (b : bool) : keeps_environment (set_loaded b).
Proof.
  intros st. split; [repeat split |].
  exists []. split; [simpl; now rewrite app_nil_r | constructor].
Qed.

Lemma keeps_run (cmd : string) (pipe check : option bool) :
  keeps_environment (_run cmd pipe check).
Proof.
  intros st. rewrite run_dispatches. split; [apply same_identity_refl |].
  exists [invocation_of (self st) cmd pipe check]. split; [reflexivity |].
  repeat constructor.
Qed.

Ltac keeps :=
  repeat first
    [ apply keeps_ret | apply keeps_raise | apply keeps_lift
    | apply keeps_get_self | apply keeps_set_config | apply keeps_set_loaded
    | apply keeps_run
    | apply keeps_bind; [| intros ?]
    | match goal with
      | |- keeps_environment (if ?b then _ else _) => destruct b
      | |- keeps_environment (match ?x with _ => _ end) => destruct x
      end ].

Section Invariant.

Variable rt : Runtime.
Variables (services : list string) (optional : option (list string)).
Variables (service cmd network : string) (args : list string).
Variables (replica_id : option Z) (filter : option pyval).
Variables (_pipe _check : option bool) (kw : kwargs).

Lemma ComposeStack_config_keeps : keeps_environment (ComposeStack_config rt).
Proof. unfold ComposeStack_config, ComposeStack__load_config. keeps. Qed.

Lemma SwarmStack_config_keeps : keeps_environment (SwarmStack_config rt).
Proof. unfold SwarmStack_config, SwarmStack__load_config. keeps. Qed.

Lemma ComposeStack_ps_keeps :
  keeps_environment (ComposeStack_ps services _pipe _check kw).
Proof. unfold ComposeStack_ps. keeps. Qed.

Lemma ComposeStack_inspect_keeps :
  keeps_environment (ComposeStack_inspect service replica_id _pipe _check kw).
Proof. unfold ComposeStack_inspect. keeps. Qed.

(** X4: whatever the Executor answers, no operation of either backend changes
    the class, name, Executor, environment or base directory of the
    instance; each only adds to what the Executor was asked to run, and every
    command it adds is run with the environment and in the base directory the
    instance was built with. *)
Theorem operations_keep_environment :
  keeps_environment (config rt)
  /\ keeps_environment ComposeStack_check_config
  /\ keeps_environment (ComposeStack_build services _pipe _check kw)
  /\ keeps_environment (ComposeStack_push services _pipe _check kw)
  /\ keeps_environment (ComposeStack_up services _pipe _check kw)
  /\ keeps_environment (ComposeStack_down _pipe _check kw)
  /\ keeps_environment (ComposeStack_restart optional _pipe _check kw)
  /\ keeps_environment (ComposeStack_ps services _pipe _check kw)
  /\ keeps_environment (ComposeStack_count_services rt filter)
  /\ keeps_environment (ComposeStack_logs services _pipe _check kw)
  /\ keeps_environment (ComposeStack_exec service cmd _pipe _check kw)
  /\ keeps_environment (ComposeStack_run service cmd _pipe _check kw)
  /\ keeps_environment (ComposeStack_inspect service replica_id _pipe _check kw)
  /\ keeps_environment (ComposeStack_raw args)
  /\ keeps_environment (get_ip_address rt service network)
  /\ keeps_environment SwarmStack_check_config
  /\ keeps_environment (SwarmStack_build services _pipe _check kw)
  /\ keeps_environment (SwarmStack_push services _pipe _check kw)
  /\ keeps_environment (SwarmStack_up rt services _pipe _check kw)
  /\ keeps_environment (SwarmStack_down _pipe _check kw)
  /\ keeps_environment (SwarmStack_restart rt optional _pipe _check kw)
  /\ keeps_environment (SwarmStack_ps services _pipe _check kw)
  /\ keeps_environment (SwarmStack_count_services rt filter)
  /\ keeps_environment (SwarmStack_logs services _pipe _check kw)
  /\ keeps_environment (SwarmStack_exec service cmd _pipe _check kw)
  /\ keeps_environment (SwarmStack_run service cmd _pipe _check kw)
  /\ keeps_environment (SwarmStack_inspect service replica_id _pipe _check kw).
Proof.
  repeat match goal with |- _ /\ _ => split end.
  - unfold config. apply keeps_bind; [apply keeps_get_self | intros o].
    destruct (cls o);
      [apply ComposeStack_config_keeps | apply SwarmStack_config_keeps].
  - unfold ComposeStack_check_config. keeps.
  - apply keeps_run.
  - apply keeps_run.
  - apply keeps_run.
  - apply keeps_run.
  - apply keeps_run.
  - apply ComposeStack_ps_keeps.
  - unfold ComposeStack_count_services.
    apply keeps_bind; [unfold ComposeStack_ps; keeps | intros res; keeps].
  - apply keeps_run.
  - apply keeps_run.
  - apply keeps_run.
  - apply ComposeStack_inspect_keeps.
  - apply keeps_run.
  - unfold get_ip_address. apply keeps_bind; [apply keeps_get_self | intros o].
    destruct (cls o); [| apply keeps_raise].
    unfold ComposeStack_get_ip_address.
    apply keeps_bind; [unfold ComposeStack_inspect; keeps | intros res; keeps].
  - unfold SwarmStack_check_config. keeps.
  - apply keeps_run.
  - apply keeps_run.
  - unfold SwarmStack_up.
    apply keeps_bind; [apply SwarmStack_config_keeps | intros cfg]. keeps.
  - unfold SwarmStack_down. keeps.
  - unfold SwarmStack_restart. apply keeps_bind; [| intros l; apply keeps_run].
    destruct optional; [apply keeps_ret |].
    apply keeps_bind; [apply SwarmStack_config_keeps | intros cfg]. keeps.
  - unfold SwarmStack_ps. keeps.
  - unfold SwarmStack_count_services.
    apply keeps_bind; [unfold SwarmStack_ps; keeps | intros res; keeps].
  - apply keeps_run.
  - apply keeps_run.
  - apply keeps_run.
  - unfold SwarmStack_inspect. keeps.
Qed.

End Invariant.

(** ** Repeated access to [config] *)

Section ConfigSequence.

Variable rt : Runtime.

Lemma failures_repeat_inr {A} (a : A) (n : nat) :
  failures (repeat (inr a : result A) n) = 0.
Proof. induction n; simpl; auto. Qed.

(** X5: on an instance that is not yet resolved, any number of accesses to
    [config] dispatch the render command once for each access that raised,
    and once more if some access returned: every access before the first
    successful one renders, and none after it. *)
Theorem access_config_render_count (n : nat) (st : state) :
  _loaded (self st) = false ->
  trace (snd (access_config rt n st))
  = (trace st
     ++ repeat (render_invocation (self st))
          (failures (fst (access_config rt n st))
           + if any_success (fst (access_config rt n st)) then 1 else 0))%list.
Proof.
  revert st. induction n as [| n IH]; intros st H.
  - simpl. now rewrite app_nil_r.
  - simpl access_config. rewrite (config_first_access rt st H).
    destruct (_executor (self st) (trace st) (render_invocation (self st)))
      as [e | res].
    + specialize (IH (dispatched st (render_invocation (self st))) H).
      destruct (access_config rt n (dispatched st (render_invocation (self st))))
        as [rs st2].
      simpl in *. rewrite IH. now rewrite <- app_assoc.
    + destruct (yaml_safe_load rt (stdout res)) as [e | c].
      * specialize (IH (dispatched st (render_invocation (self st))) H).
        destruct (access_config rt n (dispatched st (render_invocation (self st))))
          as [rs st2].
        simpl in *. rewrite IH. now rewrite <- app_assoc.
      * rewrite access_config_cached by reflexivity.
        simpl. now rewrite failures_repeat_inr.
Qed.

Lemma access_config_one_value (n : nat) (st : state) :
  exists c0, forall c, In (inr c) (fst (access_config rt n st)) -> c = c0.
Proof.
  revert st. induction n as [| n IH]; intros st.
  - exists DNone. intros c [].
  - destruct (_loaded (self st)) eqn:L.
    + rewrite access_config_cached by assumption.
      exists (_config (self st)). intros c I. cbn [fst] in I.
      apply repeat_spec in I. now inversion I.
    + simpl access_config. rewrite (config_first_access rt st L).
      destruct (_executor (self st) (trace st) (render_invocation (self st)))
        as [e | res].
      * destruct (IH (dispatched st (render_invocation (self st)))) as (c0 & Hc).
        destruct (access_config rt n (dispatched st (render_invocation (self st))))
          as [rs st2].
        exists c0. intros c [I | I]; [discriminate | now apply Hc].
      * destruct (yaml_safe_load rt (stdout res)) as [e | c1].
        -- destruct (IH (dispatched st (render_invocation (self st))))
             as (c0 & Hc).
           destruct (access_config rt n
                       (dispatched st (render_invocation (self st))))
             as [rs st2].
           exists c0. intros c [I | I]; [discriminate | now apply Hc].
        -- rewrite access_config_cached by reflexivity.
           exists c1. intros c [I | I].
           ++ now inversion I.
           ++ apply repeat_spec in I. now inversion I.
Qed.

(** X6: the configuration, once resolved, is never resolved again: whatever
    the state of the instance and whatever the Executor answers, all the
    accesses to [config] that return a value return the same one. *)
Theorem config_values_agree (n : nat) (st : state) (c c' : data) :
  In (inr c) (fst (access_config rt n st)) ->
  In (inr c') (fst (access_config rt n st)) ->
  c = c'.
Proof.
  intros I I'. destruct (access_config_one_value n st) as (c0 & H).
  rewrite (H c I). symmetry. now apply H.
Qed.

End ConfigSequence.

Lemma access_config_render_count_witness :
  _loaded (self (Sample.fresh (Sample.compose Sample.raising_executor))) = false
  /\ length (trace (snd (access_config Sample.rt 4
                          (Sample.fresh (Sample.compose Sample.raising_executor)))))
     = 4.
Proof.
  split; [reflexivity |].
  rewrite (access_config_render_count Sample.rt 4
             (Sample.fresh (Sample.compose Sample.raising_executor)) eq_refl).
  reflexivity.
Defined.

Lemma config_values_agree_witness :
  In (inr Sample.rendered)
    (fst (access_config Sample.rt 2 Sample.swarm0))
  /\ Sample.rendered = Sample.rendered.
Proof.
  split; [now left |].
  apply (config_values_agree Sample.rt 2 Sample.swarm0); now left.
Defined.

(** ** [SwarmStack.ps] with a filter of the caller *)

Lemma dict_set_set {V} (k : string) (v v' : V) (d : Dict.t V) :
  Dict.set k v' (Dict.set k v d) = Dict.set k v' d.
Proof.
  induction d as [| [k0 v0] rest IH].
  - simpl. now rewrite String.eqb_refl.
  - rewrite !dict_set_cons. destruct (String.eqb k k0) eqn:E.
    + rewrite dict_set_cons. now rewrite E.
    + rewrite dict_set_cons. rewrite E. now rewrite IH.
Qed.

Lemma chars_length (s : string) : length (Str.chars s) = String.length s.
Proof. induction s; simpl; auto. Qed.

Lemma SwarmStack_ps_unfold
    (services : list string) (_pipe _check : option bool) (kw : kwargs)
    (st : state) (v : pyval) :
  Dict.get "filter" kw = Some v ->
  SwarmStack_ps services _pipe _check kw st
  = match iadd_str v (namespace_label (self st)) with
    | inl e => (inl e, st)
    | inr filter =>
        _run (append_cmd_flags "docker service ls" (Dict.set "filter" filter kw)
                ++ " " ++ Str.join " " services)
          (Some (default true _pipe)) (Some (default false _check)) st
    end.
Proof.
  intros G. unfold SwarmStack_ps. rewrite G.
  unfold bind at 1, get_self. unfold bind at 1, lift.
  fold (namespace_label (self st)).
  destruct (iadd_str v (namespace_label (self st))) as [e | f]; [reflexivity |].
  rewrite dict_set_set. apply run_then_ret.
Qed.

(** X7: [SwarmStack.ps] reaches the Executor only when the caller gives the
    filter as a list or as a str.  A list is extended with the namespace
    label one character at a time, so the command repeats the filter flag
    for each character; to a str the label is glued without a separator. *)
Theorem SwarmStack_ps_list_or_str_filter
    (services : list string) (_pipe _check : option bool) (kw : kwargs)
    (st : state) :
  (forall l,
     Dict.get "filter" kw = Some (VList l) ->
     SwarmStack_ps services _pipe _check kw st
     = _run (append_cmd_flags "docker service ls"
               (Dict.set "filter"
                  (VList (l ++ map SStr (Str.chars (namespace_label (self st)))))
                  kw)
               ++ " " ++ Str.join " " services)
         (Some (default true _pipe)) (Some (default false _check)) st
     /\ length (l ++ map SStr (Str.chars (namespace_label (self st))))%list
        = length l + String.length (namespace_label (self st)))
  /\ (forall s,
        Dict.get "filter" kw = Some (VScalar (SStr s)) ->
        SwarmStack_ps services _pipe _check kw st
        = _run (append_cmd_flags "docker service ls"
                  (Dict.set "filter"
                     (VScalar (SStr (s ++ namespace_label (self st)))) kw)
                  ++ " " ++ Str.join " " services)
            (Some (default true _pipe)) (Some (default false _check)) st).
Proof.
  split.
  - intros l G. split.
    + now rewrite (SwarmStack_ps_unfold services _pipe _check kw st _ G).
    + now rewrite length_app, length_map, chars_length.
  - intros s G.
    now rewrite (SwarmStack_ps_unfold services _pipe _check kw st _ G).
Qed.

Lemma SwarmStack_ps_list_or_str_filter_witness :
  map inv_cmd
    (trace (snd (SwarmStack_ps [] None None
                   [("filter", VScalar (SStr "name=web,"))] Sample.swarm0)))
  = ["docker service ls --filter name=web,label=com.docker.stack.namespace=web "].
Proof.
  rewrite (proj2 (SwarmStack_ps_list_or_str_filter [] None None
                    [("filter", VScalar (SStr "name=web,"))] Sample.swarm0)
             "name=web," eq_refl).
  reflexivity.
Defined.

(** X8: in every other case, a filter that is absent, a tuple, [None], a
    boolean or a number, [SwarmStack.ps] raises [TypeError] and nothing
    reaches the Executor. *)
Theorem SwarmStack_ps_raises_otherwise
    (services : list string) (_pipe _check : option bool) (kw : kwargs)
    (st : state) :
  (forall l, Dict.get "filter" kw <> Some (VList l)) ->
  (forall s, Dict.get "filter" kw <> Some (VScalar (SStr s))) ->
  exists msg,
    SwarmStack_ps services _pipe _check kw st = (inl (TypeError msg), st).
Proof.
  intros NL NS.
  destruct (Dict.get "filter" kw) as [v |] eqn:G.
  - rewrite (SwarmStack_ps_unfold services _pipe _check kw st v G).
    destruct v as [| b | [s | z] | l | l]; simpl;
      try (eexists; reflexivity).
    + now destruct (NS s).
    + now destruct (NL l).
  - unfold SwarmStack_ps. rewrite G. eexists. reflexivity.
Qed.

Lemma SwarmStack_ps_raises_otherwise_witness :
  exists msg,
    SwarmStack_ps ["web"] None None [("filter", VNone)] Sample.swarm0
    = (inl (TypeError msg), Sample.swarm0).
Proof.
  apply (SwarmStack_ps_raises_otherwise ["web"] None None
           [("filter", VNone)] Sample.swarm0);
    intros x; discriminate.
Defined.

(** ** [ComposeStack.count_services] *)

(** X9: [ComposeStack.count_services] always runs [ps] with the services
    toggle, because it always passes a filter, be it [None]; it dispatches
    that one command with capture and without check, returns the number of
    lines of the captured output, raises [AttributeError] when no output was
    captured, and lets an exception of the Executor through. *)
Theorem ComposeStack_count_services_spec
    (rt : Runtime) (filter : option pyval) (st : state) :
  trace (snd (ComposeStack_count_services rt filter st))
  = (trace st ++ [count_services_invocation (self st) filter])%list
  /\ In "--services"
       (encode_flags [("filter", default VNone filter); ("services", VBool true)])
  /\ (forall res,
        _executor (self st) (trace st)
          (count_services_invocation (self st) filter) = inr res ->
        fst (ComposeStack_count_services rt filter st)
        = match stdout res with
          | Some out => inr (length (py_splitlines rt out))
          | None => inl (AttributeError "splitlines")
          end)
  /\ (forall e,
        _executor (self st) (trace st)
          (count_services_invocation (self st) filter) = inl e ->
        fst (ComposeStack_count_services rt filter st) = inl e).
Proof.
  assert (U : ComposeStack_count_services rt filter st
              = match _executor (self st) (trace st)
                        (count_services_invocation (self st) filter) with
                | inl e =>
                    (inl e,
                     dispatched st (count_services_invocation (self st) filter))
                | inr res =>
                    (match stdout res with
                     | Some out => inr (length (py_splitlines rt out))
                     | None => inl (AttributeError "splitlines")
                     end,
                     dispatched st (count_services_invocation (self st) filter))
                end).
  { unfold ComposeStack_count_services, bind at 1.
    change (ComposeStack_ps [] None None [("filter", default VNone filter)] st)
      with ((res <- _run (inv_cmd (count_services_invocation (self st) filter))
                      (Some true) (Some false) ;; ret res) st).
    rewrite run_then_ret, run_dispatches.
    change (invocation_of (self st)
              (inv_cmd (count_services_invocation (self st) filter))
              (Some true) (Some false))
      with (count_services_invocation (self st) filter).
    destruct (_executor (self st) (trace st) _) as [e | res]; [reflexivity |].
    destruct (stdout res); reflexivity. }
  rewrite U. split; [| split; [| split]].
  - destruct (_executor (self st) (trace st) _); reflexivity.
  - rewrite encode_flags_cons. apply in_or_app. right. now left.
  - intros res E. now rewrite E.
  - intros e E. now rewrite E.
Qed.

Lemma ComposeStack_count_services_spec_witness :
  fst (ComposeStack_count_services Sample.rt None
         (Sample.fresh (Sample.compose Sample.ok_executor)))
  = inr 1.
Proof.
  exact (proj1 (proj2 (proj2
           (ComposeStack_count_services_spec Sample.rt None
              (Sample.fresh (Sample.compose Sample.ok_executor)))))
           {| returncode := 0; stdout := Some "services: {web: {}, db: {}}";
              stderr := None |} eq_refl).
Defined.

(** ** [SwarmStack.up] and [SwarmStack.restart] around the configuration *)

Section SwarmConfig.

Variable rt : Runtime.

(** Reading the configuration dispatches nothing, or the render command. *)
Lemma SwarmStack_config_trace (st st' : state) (r : result data) :
  SwarmStack_config rt st = (r, st') ->
  trace st' = trace st
  \/ trace st'
     = (trace st
        ++ [invocation_of (self st) "docker-compose config" (Some true) None])%list.
Proof.
  unfold SwarmStack_config, SwarmStack__load_config, bind, get_self.
  destruct (_loaded (self st)).
  - simpl. intros E. inversion E; subst. now left.
  - rewrite run_dispatches.
    destruct (_executor (self st) (trace st) _) as [e | res].
    + intros E. inversion E; subst. now right.
    + unfold lift.
      destruct (yaml_safe_load rt (stdout res)) as [e | c];
        intros E; inversion E; subst; now right.
Qed.

Lemma SwarmStack_config_cached (st : state) :
  _loaded (self st) = true ->
  SwarmStack_config rt st = (inr (_config (self st)), st).
Proof.
  intros L. unfold SwarmStack_config, SwarmStack__load_config, bind, get_self.
  now rewrite L.
Qed.

Lemma SwarmStack_up_unfold
    (services : list string) (_pipe _check : option bool) (kw : kwargs)
    (st : state) :
  SwarmStack_up rt services _pipe _check kw st
  = match SwarmStack_config rt st with
    | (inl e, st') => (inl e, st')
    | (inr cfg, st') =>
        match getitem cfg "file" with
        | inl e => (inl e, st')
        | inr file =>
            _run (append_cmd_flags
                    ("docker stack deploy -c " ++ str_data rt file ++ " ")
                    (SwarmStack_up_kwargs kw) ++ " " ++ name (self st'))
              (Some (default false _pipe)) (Some (default true _check)) st'
        end
    end.
Proof.
  unfold SwarmStack_up, bind at 1.
  destruct (SwarmStack_config rt st) as [[e | cfg] st']; [reflexivity |].
  unfold bind at 1, lift.
  destruct (getitem cfg "file"); reflexivity.
Qed.

Lemma SwarmStack_restart_unfold
    (_pipe _check : option bool) (kw : kwargs) (st : state) :
  SwarmStack_restart rt None _pipe _check kw st
  = match SwarmStack_config rt st with
    | (inl e, st') => (inl e, st')
    | (inr cfg, st') =>
        match getitem cfg "services" with
        | inl e => (inl e, st')
        | inr svcs =>
            match data_keys svcs with
            | inl e => (inl e, st')
            | inr l =>
                _run (SwarmStack_restart_cmd kw l)
                  (Some (default false _pipe)) (Some (default true _check)) st'
            end
        end
    end.
Proof.
  unfold SwarmStack_restart. unfold bind at 1. unfold bind at 1.
  destruct (SwarmStack_config rt st) as [[e | cfg] st']; [reflexivity |].
  unfold bind at 1, lift.
  destruct (getitem cfg "services") as [e | svcs]; [reflexivity |].
  destruct (data_keys svcs); reflexivity.
Qed.

(** X10: [SwarmStack.up] deploys only if the configuration resolves and has
    a [file] entry.  If reading [config] raises, [up] raises the same; if
    the resolved configuration is a mapping without [file], [up] raises
    [KeyError]; if it is [None], as for an empty render, [up] raises
    [TypeError].  In each case nothing but the render command, at most, was
    handed to the Executor.  The list of services given to [up] plays no
    part. *)
Theorem SwarmStack_up_needs_file
    (services : list string) (_pipe _check : option bool) (kw : kwargs)
    (st st' : state) :
  (forall e,
     SwarmStack_config rt st = (inl e, st') ->
     SwarmStack_up rt services _pipe _check kw st = (inl e, st'))
  /\ (forall m,
        SwarmStack_config rt st = (inr (DDict m), st') ->
        Dict.get "file" m = None ->
        SwarmStack_up rt services _pipe _check kw st
        = (inl (KeyError "file"), st'))
  /\ (SwarmStack_config rt st = (inr DNone, st') ->
      exists msg,
        SwarmStack_up rt services _pipe _check kw st
        = (inl (TypeError msg), st'))
  /\ (forall r,
        SwarmStack_config rt st = (r, st') ->
        length (trace st') <= S (length (trace st)))
  /\ SwarmStack_up rt services _pipe _check kw st
     = SwarmStack_up rt [] _pipe _check kw st.
Proof.
  rewrite SwarmStack_up_unfold.
  split; [| split; [| split; [| split]]].
  - intros e E. now rewrite E.
  - intros m E G. rewrite E. simpl. now rewrite G.
  - intros E. rewrite E. eexists. reflexivity.
  - intros r E. destruct (SwarmStack_config_trace st st' r E) as [T | T];
      rewrite T; [lia | rewrite length_app; simpl; lia].
  - now rewrite SwarmStack_up_unfold.
Qed.

(** X11: [SwarmStack.restart] without a list of services updates nothing
    unless the configuration resolves to a mapping whose [services] entry is
    a mapping: it raises what reading [config] raised, [KeyError] when the
    configuration has no [services], [TypeError] when the configuration is
    [None], and [AttributeError] when [services] is not a mapping.  With an
    explicit list it never reads the configuration. *)
Theorem SwarmStack_restart_needs_services
    (_pipe _check : option bool) (kw : kwargs) (st st' : state) :
  (forall e,
     SwarmStack_config rt st = (inl e, st') ->
     SwarmStack_restart rt None _pipe _check kw st = (inl e, st'))
  /\ (forall m,
        SwarmStack_config rt st = (inr (DDict m), st') ->
        Dict.get "services" m = None ->
        SwarmStack_restart rt None _pipe _check kw st
        = (inl (KeyError "services"), st'))
  /\ (SwarmStack_config rt st = (inr DNone, st') ->
      exists msg,
        SwarmStack_restart rt None _pipe _check kw st
        = (inl (TypeError msg), st'))
  /\ (forall m l,
        SwarmStack_config rt st = (inr (DDict m), st') ->
        Dict.get "services" m = Some (DList l) ->
        SwarmStack_restart rt None _pipe _check kw st
        = (inl (AttributeError "keys"), st'))
  /\ (forall l,
        SwarmStack_restart rt (Some l) _pipe _check kw st
        = _run (SwarmStack_restart_cmd kw l)
            (Some (default false _pipe)) (Some (default true _check)) st).
Proof.
  rewrite SwarmStack_restart_unfold.
  split; [| split; [| split; [| split]]].
  - intros e E. now rewrite E.
  - intros m E G. rewrite E. simpl. now rewrite G.
  - intros E. rewrite E. eexists. reflexivity.
  - intros m l E G. rewrite E. simpl. now rewrite G.
  - reflexivity.
Qed.

(** X12: on an instance whose configuration is resolved, [up] and [restart]
    without a list dispatch their own command and nothing else: the
    configuration is not rendered again. *)
Theorem SwarmStack_resolved_dispatch_once
    (services : list string) (_pipe _check : option bool) (kw : kwargs)
    (st : state) (m : Dict.t data) :
  _loaded (self st) = true ->
  _config (self st) = DDict m ->
  (forall file,
     Dict.get "file" m = Some file ->
     SwarmStack_up rt services _pipe _check kw st
     = _run (append_cmd_flags
               ("docker stack deploy -c " ++ str_data rt file ++ " ")
               (SwarmStack_up_kwargs kw) ++ " " ++ name (self st))
         (Some (default false _pipe)) (Some (default true _check)) st)
  /\ (forall svcs,
        Dict.get "services" m = Some (DDict svcs) ->
        SwarmStack_restart rt None _pipe _check kw st
        = _run (SwarmStack_restart_cmd kw (Dict.keys svcs))
            (Some (default false _pipe)) (Some (default true _check)) st).
Proof.
  intros L C. split.
  - intros file G. rewrite SwarmStack_up_unfold.
    rewrite (SwarmStack_config_cached st L), C. simpl. now rewrite G.
  - intros svcs G. rewrite SwarmStack_restart_unfold.
    rewrite (SwarmStack_config_cached st L), C. simpl. now rewrite G.
Qed.

End SwarmConfig.

Lemma SwarmStack_up_needs_file_witness :
  SwarmStack_up Sample.rt ["web"] None None []
    (Sample.fresh (Sample.swarm Sample.raising_executor))
  = (inl (External "CalledProcessError"),
     dispatched (Sample.fresh (Sample.swarm Sample.raising_executor))
       (render_invocation (Sample.swarm Sample.raising_executor))).
Proof.
  apply (proj1 (SwarmStack_up_needs_file Sample.rt ["web"] None None []
                  (Sample.fresh (Sample.swarm Sample.raising_executor))
                  (dispatched (Sample.fresh (Sample.swarm Sample.raising_executor))
                     (render_invocation (Sample.swarm Sample.raising_executor))))).
  reflexivity.
Defined.

Lemma SwarmStack_restart_needs_services_witness :
  SwarmStack_restart Sample.rt None None None []
    (Sample.fresh (Sample.swarm Sample.raising_executor))
  = (inl (External "CalledProcessError"),
     dispatched (Sample.fresh (Sample.swarm Sample.raising_executor))
       (render_invocation (Sample.swarm Sample.raising_executor))).
Proof.
  apply (proj1 (SwarmStack_restart_needs_services Sample.rt None None []
                  (Sample.fresh (Sample.swarm Sample.raising_executor))
                  (dispatched (Sample.fresh (Sample.swarm Sample.raising_executor))
                     (render_invocation (Sample.swarm Sample.raising_executor))))).
  reflexivity.
Defined.

Lemma SwarmStack_resolved_dispatch_once_witness :
  _loaded (self Sample.swarm1) = true
  /\ _config (self Sample.swarm1) = Sample.rendered
  /\ length (trace (snd (SwarmStack_restart Sample.rt None None None []
                           Sample.swarm1)))
     = 2.
Proof.
  split; [reflexivity |].
  split; [reflexivity |].
  rewrite (proj2 (SwarmStack_resolved_dispatch_once Sample.rt [] None None []
                    Sample.swarm1
                    [("file", DStr "stack.yml");
                     ("services", DDict [("web", DDict []); ("db", DDict [])])]
                    eq_refl eq_refl)
             [("web", DDict []); ("db", DDict [])] eq_refl).
  reflexivity.
Defined.

(** ** [ComposeStack.get_ip_address] *)

(** X13: the lookup in the output of [inspect] returns an address exactly
    when the output is a list whose first element is a mapping that leads,
    through [NetworkSettings], [Networks] and the name of the network, to a
    mapping with an [IPAddress]; the address is that entry, whatever its
    type. *)
Theorem ip_address_of_returns_iff (d : data) (network : string) (ip : data) :
  ip_address_of d network = inr ip
  <-> exists first rest settings networks net,
        d = DList (DDict first :: rest)
        /\ Dict.get "NetworkSettings" first = Some (DDict settings)
        /\ Dict.get "Networks" settings = Some (DDict networks)
        /\ Dict.get network networks = Some (DDict net)
        /\ Dict.get "IPAddress" net = Some ip.
Proof.
  split.
  - unfold ip_address_of.
    destruct d as [| | | [| c s] | [| x rest] | m]; try discriminate.
    unfold getitem0.
    destruct x as [| | | | | first]; try discriminate.
    unfold getitem at 1.
    destruct (Dict.get "NetworkSettings" first) as [x |] eqn:A;
      [| discriminate].
    destruct x as [| | | | | settings]; try discriminate.
    unfold getitem at 1.
    destruct (Dict.get "Networks" settings) as [x |] eqn:B; [| discriminate].
    destruct x as [| | | | | networks]; try discriminate.
    unfold getitem at 1.
    destruct (Dict.get network networks) as [x |] eqn:C; [| discriminate].
    destruct x as [| | | | | net]; try discriminate.
    unfold getitem.
    destruct (Dict.get "IPAddress" net) as [x |] eqn:D; [| discriminate].
    intros E. inversion E; subst.
    now exists first, rest, settings, networks, net.
  - intros (first & rest & settings & networks & net & -> & A & B & C & D).
    unfold ip_address_of, getitem0, getitem. now rewrite A, B, C, D.
Qed.

Lemma ComposeStack_get_ip_address_unfold
    (rt : Runtime) (service network : string) (st : state) :
  cls (self st) = ComposeStack ->
  get_ip_address rt service network st
  = (match _executor (self st) (trace st) (inspect_invocation (self st) service)
     with
     | inl e => inl e
     | inr res =>
         if negb (Z.eqb (returncode res) 0)
         then inl (RuntimeError ("Could not inspect service " ++ service ++ "."))
         else match json_loads rt (stdout res) with
              | inl e => inl e
              | inr d => ip_address_of d network
              end
     end,
     dispatched st (inspect_invocation (self st) service)).
Proof.
  intros C. unfold get_ip_address, bind at 1, get_self. rewrite C.
  unfold ComposeStack_get_ip_address, bind at 1.
  change (ComposeStack_inspect service None None None [] st)
    with (_executor (self st) (trace st) (inspect_invocation (self st) service),
          dispatched st (inspect_invocation (self st) service)).
  destruct (_executor (self st) (trace st) _) as [e | res]; [reflexivity |].
  destruct (negb (Z.eqb (returncode res) 0)); [reflexivity |].
  unfold bind, lift.
  destruct (json_loads rt (stdout res)); reflexivity.
Qed.

(** X14: [get_ip_address] on a Compose stack dispatches one command, the
    [inspect] of the first replica, without capture and with check.  What
    the Executor or the JSON parser raises, it raises; an empty list of
    inspected objects gives [IndexError] and a network the object is not
    attached to gives [KeyError] of its name.  Nothing is retried. *)
Theorem get_ip_address_failures
    (rt : Runtime) (service network : string) (st : state) :
  cls (self st) = ComposeStack ->
  snd (get_ip_address rt service network st)
  = dispatched st (inspect_invocation (self st) service)
  /\ inv_pipe (inspect_invocation (self st) service) = Some false
  /\ inv_check (inspect_invocation (self st) service) = Some true
  /\ (forall e,
        _executor (self st) (trace st) (inspect_invocation (self st) service)
        = inl e ->
        fst (get_ip_address rt service network st) = inl e)
  /\ (forall res,
        _executor (self st) (trace st) (inspect_invocation (self st) service)
        = inr res ->
        returncode res = 0%Z ->
        (forall e, json_loads rt (stdout res) = inl e ->
                   fst (get_ip_address rt service network st) = inl e)
        /\ (json_loads rt (stdout res) = inr (DList []) ->
            fst (get_ip_address rt service network st) = inl IndexError)
        /\ (forall first rest settings networks,
              json_loads rt (stdout res) = inr (DList (DDict first :: rest)) ->
              Dict.get "NetworkSettings" first = Some (DDict settings) ->
              Dict.get "Networks" settings = Some (DDict networks) ->
              Dict.get network networks = None ->
              fst (get_ip_address rt service network st)
              = inl (KeyError network))).
Proof.
  intros C. rewrite (ComposeStack_get_ip_address_unfold rt service network st C).
  split; [reflexivity |].
  split; [reflexivity |].
  split; [reflexivity |].
  split.
  - intros e E. simpl. now rewrite E.
  - intros res E Z0. simpl fst. rewrite E, Z0.
    change (negb (0 =? 0)%Z) with false. cbv iota.
    split; [| split].
    + intros e J. now rewrite J.
    + intros J. now rewrite J.
    + intros first rest settings networks J A B N. rewrite J.
      unfold ip_address_of, getitem0, getitem. now rewrite A, B, N.
Qed.

Lemma get_ip_address_failures_witness :
  cls (self (Sample.fresh (Sample.compose Sample.raising_executor)))
  = ComposeStack
  /\ fst (get_ip_address Sample.rt "api" "front"
            (Sample.fresh (Sample.compose Sample.raising_executor)))
     = inl (External "CalledProcessError").
Proof.
  split; [reflexivity |].
  apply (proj1 (proj2 (proj2 (proj2
           (get_ip_address_failures Sample.rt "api" "front"
              (Sample.fresh (Sample.compose Sample.raising_executor))
              eq_refl))))).
  reflexivity.
Defined.

(** ** The two classes and the contract *)

(** X15: both classes define every method [BaseStack] declares abstract,
    and every method of [SwarmStack] is a method of [ComposeStack]; the
    converse fails for exactly [raw] and [get_ip_address]. *)
Theorem backends_implement_contract (m : string) :
  (In m BaseStack_methods ->
   In m (class_methods ComposeStack) /\ In m (class_methods SwarmStack))
  /\ (In m (class_methods SwarmStack) -> In m (class_methods ComposeStack))
  /\ (In m (class_methods ComposeStack) ->
      In m (class_methods SwarmStack) \/ m = "raw" \/ m = "get_ip_address")
  /\ ~ In "raw" (class_methods SwarmStack)
  /\ ~ In "get_ip_address" (class_methods SwarmStack).
Proof.
  split; [| split; [| split; [| split]]].
  - intros H. unfold BaseStack_methods in H. simpl in H.
    repeat (destruct H as [<- | H]; [split; simpl; tauto |]).
    contradiction.
  - intros H. simpl in H.
    repeat (destruct H as [<- | H]; [simpl; tauto |]).
    contradiction.
  - intros H. simpl in H.
    repeat (destruct H as [<- | H];
            [first [ left; simpl; tauto | right; tauto ] |]).
    contradiction.
  - simpl. intros H.
    repeat (destruct H as [H | H]; [discriminate |]). contradiction.
  - simpl. intros H.
    repeat (destruct H as [H | H]; [discriminate |]). contradiction.
Qed.

Lemma backends_implement_contract_witness :
  In "ps" (class_methods ComposeStack) /\ In "ps" (class_methods SwarmStack).
Proof.
  apply (proj1 (backends_implement_contract "ps")).
  simpl. tauto.
Defined.

(** ** [restart] without services *)

(** X16: [ComposeStack.restart] treats a missing list of services as the
    empty list and dispatches the same single command.  [SwarmStack.restart]
    given the empty list, or resolving a configuration that declares no
    service, still calls the Executor, with the empty command. *)
Theorem restart_without_services
    (rt : Runtime) (_pipe _check : option bool) (kw : kwargs) (st : state) :
  ComposeStack_restart None _pipe _check kw st
  = ComposeStack_restart (Some []) _pipe _check kw st
  /\ SwarmStack_restart rt (Some []) _pipe _check kw st
     = _run EmptyString (Some (default false _pipe)) (Some (default true _check)) st
  /\ (forall m,
        _loaded (self st) = true ->
        _config (self st) = DDict m ->
        Dict.get "services" m = Some (DDict []) ->
        SwarmStack_restart rt None _pipe _check kw st
        = _run EmptyString (Some (default false _pipe))
            (Some (default true _check)) st).
Proof.
  split; [reflexivity |].
  split; [reflexivity |].
  intros m L C G. rewrite SwarmStack_restart_unfold.
  rewrite (SwarmStack_config_cached rt st L), C. simpl. now rewrite G.
Qed.

Lemma restart_without_services_witness :
  map inv_cmd
    (trace (snd (SwarmStack_restart Sample.rt (Some []) None None
                   [("detach", VBool true)] Sample.swarm0)))
  = [EmptyString].
Proof.
  rewrite (proj1 (proj2 (restart_without_services Sample.rt None None
                           [("detach", VBool true)] Sample.swarm0))).
  reflexivity.
Defined.

(** ** The error of [load_stack] for a missing file *)

(** X17: [load_stack] raises its [RuntimeError] about the missing [file]
    exactly when the entry of the stack is a mapping that has no [file], or
    a [None] one, and has a [name]. *)
Theorem load_stack_runtime_error_iff
    (rt : Runtime) (ctx : Context) (stack_name : string) :
  (exists msg, load_stack rt ctx stack_name = inl (RuntimeError msg))
  <-> exists items stack_config n,
        Dict.get "stacks" (ctx_config ctx) = Some (DDict items)
        /\ Dict.get stack_name items = Some (DDict stack_config)
        /\ (Dict.get "file" stack_config = None
            \/ Dict.get "file" stack_config = Some DNone)
        /\ Dict.get "name" stack_config = Some n.
Proof.
  split.
  - intros (msg & H). unfold load_stack in H.
    destruct (Dict.get "stacks" (ctx_config ctx)) as [stacks |] eqn:A;
      [| discriminate].
    destruct stacks as [| | | | | items]; try discriminate.
    destruct (Dict.get stack_name items) as [entry |] eqn:B; [| discriminate].
    destruct entry as [| | | | | sc]; try discriminate.
    unfold default at 1 in H. cbv beta iota in H.
    destruct (Dict.get "name" sc) as [n |] eqn:N.
    + exists items, sc, n.
      repeat (split; [reflexivity || assumption |]).
      split; [| assumption].
      destruct (Dict.get "file" sc) as [[| | | | |] |]; auto;
        unfold default, is_none in H;
        destruct (Dict.mem "swarm" sc && truthy _) in H; discriminate.
    + destruct (Dict.get "file" sc) as [[| | | | |] |];
        unfold default, is_none in H; try discriminate;
        destruct (Dict.mem "swarm" sc && truthy _) in H; discriminate.
  - intros (items & sc & n & A & B & F & N).
    unfold load_stack. rewrite A, B. unfold default at 1. cbv beta iota.
    destruct F as [F | F]; rewrite F, N; eexists; reflexivity.
Qed.

Lemma load_stack_succeeds_iff_witness :
  exists o,
    load_stack Sample.rt
      {| ctx_executor := Sample.ok_executor;
         ctx_config :=
           [("stacks", DDict [("api", DDict [("file", DStr "x.yml")])])] |}
      "api"
    = inr o.
Proof.
  apply (proj2 (load_stack_succeeds_iff Sample.rt
                  {| ctx_executor := Sample.ok_executor;
                     ctx_config :=
                       [("stacks",
                         DDict [("api", DDict [("file", DStr "x.yml")])])] |}
                  "api")).
  exists [("api", DDict [("file", DStr "x.yml")])],
         [("file", DStr "x.yml")], (DStr "x.yml").
  repeat (split; [reflexivity |]). discriminate.
Defined.

Lemma ip_address_of_returns_iff_witness :
  ip_address_of Sample.inspected "front" = inr (DStr "10.0.0.2").
Proof.
  apply (proj2 (ip_address_of_returns_iff Sample.inspected "front"
                  (DStr "10.0.0.2"))).
  exists [("NetworkSettings",
           DDict [("Networks",
                   DDict [("front", DDict [("IPAddress", DStr "10.0.0.2")])])])],
         [],
         [("Networks",
           DDict [("front", DDict [("IPAddress", DStr "10.0.0.2")])])],
         [("front", DDict [("IPAddress", DStr "10.0.0.2")])],
         [("IPAddress", DStr "10.0.0.2")].
  repeat (split; [reflexivity |]). reflexivity.
Defined.

Lemma load_stack_runtime_error_iff_witness :
  exists msg,
    load_stack Sample.rt
      {| ctx_executor := Sample.ok_executor;
         ctx_config :=
           [("stacks", DDict [("api", DDict [("name", DStr "api")])])] |}
      "api"
    = inl (RuntimeError msg).
Proof.
  apply (proj2 (load_stack_runtime_error_iff Sample.rt
                  {| ctx_executor := Sample.ok_executor;
                     ctx_config :=
                       [("stacks",
                         DDict [("api", DDict [("name", DStr "api")])])] |}
                  "api")).
  exists [("api", DDict [("name", DStr "api")])],
         [("name", DStr "api")], (DStr "api").
  repeat (split; [reflexivity |]).
  split; [now left | reflexivity].
Defined.
